(** * Employment form: sanitisation, validation and derived income

    A shallow embedding of the utility layer of the employment form
    (src/utils/sanitize.ts, src/utils/calculations.ts, src/utils/validation.ts)
    and of the debounced recomputation of src/components/EmploymentForm.tsx,
    together with the properties the specification states about them.

    Conventions of the embedding:
    - a JavaScript string is the list of its UTF-16 code units ([list N]);
    - a JavaScript number is an IEEE 754 binary64 value ([spec_float] with
      precision 53 and maximal exponent 1024);
    - a [Date] is its time value in milliseconds, [None] for an invalid date;
      the local time zone is a list of transitions between offsets from UTC;
    - the values are the data a form holds: [undefined], [null], booleans,
      numbers, strings, dates, arrays and objects; an object is the list of
      its own enumerable properties in enumeration order, and its prototype
      is [Object.prototype] or [null]; functions, accessors and objects
      with other prototypes are not represented;
    - a thrown exception is the [Throw] case of a result type. *)

From Stdlib Require Import ZArith NArith List Bool Lia String Ascii DecimalString.
From Stdlib Require Import Floats.SpecFloat.
Import ListNotations.

(* ================================================================= *)
(** * Part I: the embedding *)
(* ================================================================= *)

(** ** Strings *)

Module JsString.

Definition t := list N.

(** The code units of an ASCII literal. *)
Fixpoint u (s : string) : t :=
  match s with
  | EmptyString => []
  | String a s' => N_of_ascii a :: u s'
  end.

Fixpoint eqb (a b : t) : bool :=
  match a, b with
  | [], [] => true
  | x :: a', y :: b' => N.eqb x y && eqb a' b'
  | _, _ => false
  end.

(** [s.replace(/c/g, r)] for a pattern that is one literal code unit and a
    replacement [r] without [$] patterns: every occurrence of [c], scanning
    left to right, is replaced by [r]; the replacement is not rescanned. *)
Fixpoint replaceAll (c : N) (r : t) (s : t) : t :=
  match s with
  | [] => []
  | x :: s' => (if N.eqb x c then r else [x]) ++ replaceAll c r s'
  end.

(** The white space and line terminator code units: the class [\s] of a
    regular expression, which is also what [String.prototype.trim] strips. *)
Definition isWhiteSpace (c : N) : bool :=
  (((9 <=? c) && (c <=? 13)) || (c =? 32) || (c =? 160) || (c =? 5760)
   || ((8192 <=? c) && (c <=? 8202)) || (c =? 8232) || (c =? 8233)
   || (c =? 8239) || (c =? 8287) || (c =? 12288) || (c =? 65279))%N.

Fixpoint trimStart (s : t) : t :=
  match s with
  | [] => []
  | x :: s' => if isWhiteSpace x then trimStart s' else s
  end.

Definition trim (s : t) : t := rev (trimStart (rev (trimStart s))).

End JsString.

Notation jsstring := JsString.t.
Notation u := JsString.u.

(** The six code units [sanitizeString] escapes. *)
Definition c_amp : N := 38.   (* & *)
Definition c_lt : N := 60.    (* < *)
Definition c_gt : N := 62.    (* > *)
Definition c_quot : N := 34.  (* double quote *)
Definition c_apos : N := 39.  (* ' *)
Definition c_slash : N := 47. (* / *)

(** ** Numbers: IEEE 754 binary64 *)

Module Num.

Definition prec : Z := 53.
Definition emax : Z := 1024.

Definition t := spec_float.

Definition NaN : t := S754_nan.
Definition Infinity : t := S754_infinity false.
Definition NegInfinity : t := S754_infinity true.
Definition zero : t := S754_zero false.

(** The number denoted by an integer literal (correctly rounded). *)
Definition ofZ (z : Z) : t := binary_normalize prec emax z 0 false.

Definition mul (a b : t) : t := SFmul prec emax a b.
Definition div (a b : t) : t := SFdiv prec emax a b.
Definition add (a b : t) : t := SFadd prec emax a b.
Definition neg (a : t) : t := SFopp a.

Definition isNaN (a : t) : bool :=
  match a with S754_nan => true | _ => false end.

(** The relational operators; every comparison with NaN is false. *)
Definition lt (a b : t) : bool :=
  match SFcompare a b with Some Lt => true | _ => false end.
Definition gt (a b : t) : bool :=
  match SFcompare a b with Some Gt => true | _ => false end.
Definition le (a b : t) : bool :=
  match SFcompare a b with Some Lt | Some Eq => true | _ => false end.
Definition ge (a b : t) : bool :=
  match SFcompare a b with Some Gt | Some Eq => true | _ => false end.

(** ToBoolean of a number: false for 0, -0 and NaN. *)
Definition truthy (a : t) : bool :=
  match a with
  | S754_zero _ | S754_nan => false
  | _ => true
  end.

End Num.

Notation number := Num.t.

(** ** Values

    [JObject] is an ordinary object, whose prototype is [Object.prototype]
    (an object literal, the result of [JSON.parse], the data of a form);
    [JBare] is an object without a prototype, as [Object.create(null)]
    makes it. *)

Inductive value : Type :=
| JUndefined
| JNull
| JBool (b : bool)
| JNumber (x : number)
| JString (s : jsstring)
| JDate (time : option Z)
| JArray (elems : list value)
| JObject (props : list (jsstring * value))
| JBare (props : list (jsstring * value)).

Inductive jstype := TUndefined | TObject | TBoolean | TNumber | TString.

Definition typeof (v : value) : jstype :=
  match v with
  | JUndefined => TUndefined
  | JNull => TObject
  | JBool _ => TBoolean
  | JNumber _ => TNumber
  | JString _ => TString
  | JDate _ | JArray _ | JObject _ | JBare _ => TObject
  end.

Definition jstype_eqb (a b : jstype) : bool :=
  match a, b with
  | TUndefined, TUndefined | TObject, TObject | TBoolean, TBoolean
  | TNumber, TNumber | TString, TString => true
  | _, _ => false
  end.

(** ToBoolean. *)
Definition truthy (v : value) : bool :=
  match v with
  | JUndefined | JNull => false
  | JBool b => b
  | JNumber x => Num.truthy x
  | JString s => match s with [] => false | _ => true end
  | JDate _ | JArray _ | JObject _ | JBare _ => true
  end.

(** Exceptions: a thrown [Error] is its message. *)
Inductive result (A : Type) : Type :=
| Ok (a : A)
| Throw (message : jsstring).
Arguments Ok {A} a.
Arguments Throw {A} message.

(** ** src/utils/sanitize.ts *)

Definition sanitizeString (str : value) : jsstring :=
  match str with
  | JString s =>
      JsString.replaceAll c_slash (u "&#x2F;")
        (JsString.replaceAll c_apos (u "&#x27;")
          (JsString.replaceAll c_quot (u "&quot;")
            (JsString.replaceAll c_gt (u "&gt;")
              (JsString.replaceAll c_lt (u "&lt;")
                (JsString.replaceAll c_amp (u "&amp;") s)))))
  | _ => []
  end.

(** *** Objects as lists of own enumerable properties *)

Definition props := list (jsstring * value).

Fixpoint getOwn (key : jsstring) (ps : props) : option value :=
  match ps with
  | [] => None
  | (k, v) :: ps' => if JsString.eqb k key then Some v else getOwn key ps'
  end.

Definition hasOwn (key : jsstring) (ps : props) : bool :=
  match getOwn key ps with Some _ => true | None => false end.

(** [obj[key]] for a key that is not the name of a member of
    [Object.prototype]: the own property, otherwise [undefined]. *)
Definition get (key : jsstring) (ps : props) : value :=
  match getOwn key ps with Some v => v | None => JUndefined end.

Definition k_proto : jsstring := u "__proto__".
Definition k_hasOwnProperty : jsstring := u "hasOwnProperty".

Fixpoint upsert (key : jsstring) (v : value) (ps : props) : props :=
  match ps with
  | [] => [(key, v)]
  | (k, w) :: ps' =>
      if JsString.eqb k key then (k, v) :: ps' else (k, w) :: upsert key v ps'
  end.

(** [obj[key] = v] on an ordinary object with data properties only: the
    property is created or overwritten, except for the name [__proto__],
    an accessor of [Object.prototype] whose setter creates no own property. *)
Definition setProp (key : jsstring) (v : value) (ps : props) : props :=
  if JsString.eqb key k_proto then ps else upsert key v ps.

(** The name of an array index. *)
Definition indexKey (i : nat) : jsstring :=
  u (DecimalString.NilZero.string_of_uint (Nat.to_uint i)).

Fixpoint indexed (i : nat) (elems : list value) : props :=
  match elems with
  | [] => []
  | v :: elems' => (indexKey i, v) :: indexed (S i) elems'
  end.

(** What [for (const key in data)] enumerates together with [data[key]]:
    the properties of an object, the elements of an array under their
    indices, nothing for a date. *)
Definition enumerate (data : value) : props :=
  match data with
  | JObject ps | JBare ps => ps
  | JArray elems => indexed 0 elems
  | _ => []
  end.

(** [data.hasOwnProperty(key)] for an enumerated [key].  The method is
    looked up on [data] first and then on its prototype: an own property of
    that name shadows the built-in method, and its value, which is not a
    function, cannot be called; an object without a prototype has no such
    method at all.  Both are a TypeError with the same message.  The
    built-in method, which arrays and dates inherit as well, answers [true]
    on an own key. *)
Definition callHasOwnProperty (data : value) (key : jsstring) : result bool :=
  match data with
  | JObject ps =>
      if hasOwn k_hasOwnProperty ps
      then Throw (u "data.hasOwnProperty is not a function")
      else Ok (hasOwn key ps)
  | JBare _ => Throw (u "data.hasOwnProperty is not a function")
  | _ => Ok true
  end.

Definition isDate (v : value) : bool :=
  match v with JDate _ => true | _ => false end.
Definition isNull (v : value) : bool :=
  match v with JNull => true | _ => false end.
Definition isArray (v : value) : bool :=
  match v with JArray _ => true | _ => false end.

(** The body of the [for ... in] loop of [sanitizeFormData], given the
    function itself for the recursive call. *)
Definition sanitizeEntry (self : value -> result value) (data : value)
    (key : jsstring) (v : value) (sanitized : props) : result props :=
  match callHasOwnProperty data key with
  | Throw m => Throw m
  | Ok false => Ok sanitized
  | Ok true =>
      if jstype_eqb (typeof v) TString then
        Ok (setProp key (JString (sanitizeString v)) sanitized)
      else if isDate v then
        Ok (setProp key v sanitized)
      else if jstype_eqb (typeof v) TObject && negb (isNull v)
              && negb (isArray v) then
        match self v with
        | Ok w => Ok (setProp key w sanitized)
        | Throw m => Throw m
        end
      else
        Ok (setProp key v sanitized)
  end.

Definition invalidData : jsstring := u "Invalid data: Expected an object".
Definition failedPrefix : jsstring := u "Failed to sanitize data: ".

Fixpoint sanitizeFormData (data : value) : result value :=
  if negb (truthy data) || negb (jstype_eqb (typeof data) TObject) then
    Throw invalidData
  else
    let tryBlock :=
      match data with
      | JObject ps | JBare ps =>
          (fix forIn (todo : props) (sanitized : props) : result props :=
             match todo with
             | [] => Ok sanitized
             | (key, v) :: todo' =>
                 match sanitizeEntry sanitizeFormData data key v sanitized with
                 | Ok sanitized' => forIn todo' sanitized'
                 | Throw m => Throw m
                 end
             end) ps []
      | JArray elems =>
          (fix forIn (i : nat) (todo : list value) (sanitized : props)
             : result props :=
             match todo with
             | [] => Ok sanitized
             | v :: todo' =>
                 match sanitizeEntry sanitizeFormData data (indexKey i) v
                         sanitized with
                 | Ok sanitized' => forIn (S i) todo' sanitized'
                 | Throw m => Throw m
                 end
             end) 0 elems []
      | _ => Ok []
      end in
    match tryBlock with
    | Ok sanitized => Ok (JObject sanitized)
    | Throw m => Throw (failedPrefix ++ m)
    end.

Definition validateIncome (income : number) : bool :=
  Num.ge income Num.zero && Num.le income (Num.ofZ 1000000000).

(** The character class of [validateEmployerName]:
    letters, digits, [\s] and the characters - . , & ' ( ). *)
Definition employerNameClass (c : N) : bool :=
  (((97 <=? c) && (c <=? 122)) || ((65 <=? c) && (c <=? 90))
   || ((48 <=? c) && (c <=? 57)) || JsString.isWhiteSpace c
   || (c =? 45) || (c =? 46) || (c =? 44) || (c =? 38) || (c =? 39)
   || (c =? 40) || (c =? 41))%N.

(** [/^[class]+$/.test(s)]: one or more code units, all of the class. *)
Definition testClassPlus (class : N -> bool) (s : jsstring) : bool :=
  match s with
  | [] => false
  | _ => forallb class s
  end.

Definition validateEmployerName (name : jsstring) : bool :=
  testClassPlus employerNameClass name && (List.length name <=? 100)%nat.

(** ** The part of zod (version 3) that src/utils/validation.ts uses *)

Module Zod.

Record issue := { path : list jsstring; message : jsstring }.

(** The outcome of parsing: [INVALID] is the aborted status (no value);
    otherwise a value, dirty when some check on it has failed. *)
Inductive parsed (A : Type) : Type :=
| INVALID
| OK (dirty : bool) (value : A).
Arguments INVALID {A}.
Arguments OK {A} dirty value.

(** A schema parses the input found at a path, and reports issues. *)
Definition schema (A : Type) : Type :=
  list jsstring -> value -> list issue * parsed A.

(** [getParsedType], as its name in messages. *)
Definition parsedTypeName (v : value) : jsstring :=
  match v with
  | JUndefined => u "undefined"
  | JNull => u "null"
  | JBool _ => u "boolean"
  | JNumber x => if Num.isNaN x then u "nan" else u "number"
  | JString _ => u "string"
  | JDate _ => u "date"
  | JArray _ => u "array"
  | JObject _ | JBare _ => u "object"
  end.

(** The message of an [invalid_type] issue: the schema's [required_error]
    on [undefined] and its [invalid_type_error] otherwise, with the
    defaults of the library's error map when the schema gives none. *)
Definition invalidTypeMessage (required_error invalid_type_error :
    option jsstring) (expected : jsstring) (input : value) : jsstring :=
  match input with
  | JUndefined =>
      match required_error with Some m => m | None => u "Required" end
  | _ =>
      match invalid_type_error with
      | Some m => m
      | None => u "Expected " ++ expected ++ u ", received "
                  ++ parsedTypeName input
      end
  end.

(** *** z.string() *)

Inductive stringCheck :=
| SMin (value : nat) (message : jsstring)
| SMax (value : nat) (message : jsstring)
| SRegex (test : jsstring -> bool) (message : jsstring)
| STrim.

(** The checks run in the order in which the schema lists them; [trim]
    replaces the data seen by the checks that follow it. *)
Fixpoint stringChecks (checks : list stringCheck) (p : list jsstring)
    (data : jsstring) (dirty : bool) (issues : list issue)
  : list issue * parsed jsstring :=
  match checks with
  | [] => (issues, OK dirty data)
  | SMin n m :: cs =>
      if (List.length data <? n)%nat
      then stringChecks cs p data true
             (issues ++ [{| path := p; message := m |}])
      else stringChecks cs p data dirty issues
  | SMax n m :: cs =>
      if (n <? List.length data)%nat
      then stringChecks cs p data true
             (issues ++ [{| path := p; message := m |}])
      else stringChecks cs p data dirty issues
  | SRegex test m :: cs =>
      if negb (test data)
      then stringChecks cs p data true
             (issues ++ [{| path := p; message := m |}])
      else stringChecks cs p data dirty issues
  | STrim :: cs => stringChecks cs p (JsString.trim data) dirty issues
  end.

Definition string (checks : list stringCheck) : schema jsstring :=
  fun p input =>
    match input with
    | JString s => stringChecks checks p s false []
    | _ => ([{| path := p;
                message := invalidTypeMessage None None (u "string") input |}],
            INVALID)
    end.

(** *** z.number() *)

Inductive numberCheck :=
| NMin (value : number) (inclusive : bool) (message : jsstring)
| NMax (value : number) (inclusive : bool) (message : jsstring).

Fixpoint numberChecks (checks : list numberCheck) (p : list jsstring)
    (data : number) (dirty : bool) (issues : list issue)
  : list issue * parsed number :=
  match checks with
  | [] => (issues, OK dirty data)
  | NMin v inclusive m :: cs =>
      let tooSmall := if inclusive then Num.lt data v else Num.le data v in
      if tooSmall
      then numberChecks cs p data true
             (issues ++ [{| path := p; message := m |}])
      else numberChecks cs p data dirty issues
  | NMax v inclusive m :: cs =>
      let tooBig := if inclusive then Num.gt data v else Num.ge data v in
      if tooBig
      then numberChecks cs p data true
             (issues ++ [{| path := p; message := m |}])
      else numberChecks cs p data dirty issues
  end.

(** NaN has the parsed type [nan], not [number]. *)
Definition number (invalid_type_error : option jsstring)
    (checks : list numberCheck) : schema Num.t :=
  fun p input =>
    match input with
    | JNumber x =>
        if Num.isNaN x
        then ([{| path := p;
                  message := invalidTypeMessage None invalid_type_error
                               (u "number") input |}], INVALID)
        else numberChecks checks p x false []
    | _ => ([{| path := p;
                message := invalidTypeMessage None invalid_type_error
                             (u "number") input |}], INVALID)
    end.

Definition positive (message : jsstring) : numberCheck :=
  NMin Num.zero false message.
Definition min (value : Num.t) (message : jsstring) : numberCheck :=
  NMin value true message.
Definition max (value : Num.t) (message : jsstring) : numberCheck :=
  NMax value true message.

(** *** z.date(): the time value of a valid [Date] *)

Definition date (required_error : option jsstring) : schema Z :=
  fun p input =>
    match input with
    | JDate (Some time) => ([], OK false time)
    | JDate None =>
        ([{| path := p; message := u "Invalid date" |}], INVALID)
    | _ => ([{| path := p;
                message := invalidTypeMessage required_error None
                             (u "date") input |}], INVALID)
    end.

(** *** .optional() *)

Definition optional {A : Type} (inner : schema A) : schema (option A) :=
  fun p input =>
    match input with
    | JUndefined => ([], OK false None)
    | _ =>
        match inner p input with
        | (issues, OK dirty a) => (issues, OK dirty (Some a))
        | (issues, INVALID) => (issues, INVALID)
        end
    end.

(** *** .refine(check, { path, message })

    The refinement runs on the value of the inner schema unless the inner
    parse was aborted; a failed refinement adds its issue at the path of
    the value extended by the refinement's own path. *)
Definition refine {A : Type} (inner : schema A) (check : A -> bool)
    (subpath : list jsstring) (message : jsstring) : schema A :=
  fun p input =>
    match inner p input with
    | (issues, INVALID) => (issues, INVALID)
    | (issues, OK dirty a) =>
        if check a then (issues, OK dirty a)
        else (issues ++ [{| path := p ++ subpath; message := message |}],
              OK true a)
    end.

(** *** safeParse *)

Inductive safeParseReturn (A : Type) : Type :=
| success (data : A)
| failure (error : list issue).
Arguments success {A} data.
Arguments failure {A} error.

Definition safeParse {A : Type} (s : schema A) (input : value)
  : safeParseReturn A :=
  match s [] input with
  | (_, OK false a) => success a
  | (issues, _) => failure issues
  end.

End Zod.

(** ** src/utils/validation.ts *)

Definition MIN_EMPLOYER_NAME_LENGTH : nat := 1.
Definition MAX_EMPLOYER_NAME_LENGTH : nat := 100.
Definition MIN_ANNUAL_INCOME : number := Num.ofZ 1.
Definition MAX_ANNUAL_INCOME : number := Num.ofZ 1000000000.
Definition MAX_NOTES_LENGTH : nat := 500.

Module ERROR_MESSAGES.
Definition employerName_required := u "Please enter the employer's name".
Definition employerName_tooLong :=
  u "Employer name must be less than 100 characters".
Definition currency_required := u "Please select a currency".
Definition currency_invalid := u "Invalid currency code".
Definition annualGrossIncome_required :=
  u "Please enter the annual gross income".
Definition annualGrossIncome_invalid :=
  u "Annual gross income must only be a number".
Definition annualGrossIncome_positive :=
  u "Annual gross income must be a positive number".
(** [MAX_ANNUAL_INCOME.toLocaleString()] in the en-US locale. *)
Definition annualGrossIncome_tooLarge :=
  u "Annual gross income must be less than 1,000,000,000".
Definition employmentStartDate_required := u "Please enter the start date".
Definition employmentStartDate_future :=
  u "Employment start date cannot be in the future".
Definition employmentEndDate_beforeStart :=
  u "Employment end date must be after the start date".
Definition notes_tooLong := u "Notes must be less than 500 characters".
End ERROR_MESSAGES.

(** [/^[A-Z]{3}$/.test(s)] *)
Definition testCurrencyCode (s : jsstring) : bool :=
  (List.length s =? 3)%nat
  && forallb (fun c => ((65 <=? c) && (c <=? 90))%N) s.

Record EmploymentFormData := {
  employerName : jsstring;
  currency : jsstring;
  annualGrossIncome : number;
  employmentStartDate : Z;
  employmentEndDate : option Z;
  notes : option jsstring
}.

Definition k_employerName : jsstring := u "employerName".
Definition k_currency : jsstring := u "currency".
Definition k_annualGrossIncome : jsstring := u "annualGrossIncome".
Definition k_employmentStartDate : jsstring := u "employmentStartDate".
Definition k_employmentEndDate : jsstring := u "employmentEndDate".
Definition k_notes : jsstring := u "notes".

Section EmploymentSchema.

(** The time value of [new Date()] when the schema is evaluated. *)
Variable now : Z.

Definition employerNameSchema : Zod.schema jsstring :=
  Zod.string
    [Zod.SMin MIN_EMPLOYER_NAME_LENGTH ERROR_MESSAGES.employerName_required;
     Zod.SMax MAX_EMPLOYER_NAME_LENGTH ERROR_MESSAGES.employerName_tooLong;
     Zod.STrim].

Definition currencySchema : Zod.schema jsstring :=
  Zod.string
    [Zod.SMin 1 ERROR_MESSAGES.currency_required;
     Zod.SRegex testCurrencyCode ERROR_MESSAGES.currency_invalid].

Definition annualGrossIncomeSchema : Zod.schema number :=
  Zod.number (Some ERROR_MESSAGES.annualGrossIncome_invalid)
    [Zod.positive ERROR_MESSAGES.annualGrossIncome_positive;
     Zod.min MIN_ANNUAL_INCOME ERROR_MESSAGES.annualGrossIncome_required;
     Zod.max MAX_ANNUAL_INCOME ERROR_MESSAGES.annualGrossIncome_tooLarge].

Definition employmentStartDateSchema : Zod.schema Z :=
  Zod.refine
    (Zod.date (Some ERROR_MESSAGES.employmentStartDate_required))
    (fun date => (date <=? now)%Z)
    [] ERROR_MESSAGES.employmentStartDate_future.

Definition employmentEndDateSchema : Zod.schema (option Z) :=
  Zod.optional (Zod.date None).

Definition notesSchema : Zod.schema (option jsstring) :=
  Zod.optional
    (Zod.string [Zod.SMax MAX_NOTES_LENGTH ERROR_MESSAGES.notes_tooLong]).

(** [z.object({...})]: the input must be an object; every key of the shape
    is parsed at its own path, in the order of the shape, and all issues
    are collected; the object is aborted when some key is, and dirty when
    some key is. *)
Definition employmentObject : Zod.schema EmploymentFormData :=
  fun p input =>
    match input with
    | JObject ps | JBare ps =>
        let '(i1, r1) :=
          employerNameSchema (p ++ [k_employerName])
            (get k_employerName ps) in
        let '(i2, r2) :=
          currencySchema (p ++ [k_currency]) (get k_currency ps) in
        let '(i3, r3) :=
          annualGrossIncomeSchema (p ++ [k_annualGrossIncome])
            (get k_annualGrossIncome ps) in
        let '(i4, r4) :=
          employmentStartDateSchema (p ++ [k_employmentStartDate])
            (get k_employmentStartDate ps) in
        let '(i5, r5) :=
          employmentEndDateSchema (p ++ [k_employmentEndDate])
            (get k_employmentEndDate ps) in
        let '(i6, r6) := notesSchema (p ++ [k_notes]) (get k_notes ps) in
        (i1 ++ i2 ++ i3 ++ i4 ++ i5 ++ i6,
         match r1, r2, r3, r4, r5, r6 with
         | Zod.OK d1 v1, Zod.OK d2 v2, Zod.OK d3 v3, Zod.OK d4 v4,
           Zod.OK d5 v5, Zod.OK d6 v6 =>
             Zod.OK (d1 || d2 || d3 || d4 || d5 || d6)
               {| employerName := v1; currency := v2;
                  annualGrossIncome := v3; employmentStartDate := v4;
                  employmentEndDate := v5; notes := v6 |}
         | _, _, _, _, _, _ => Zod.INVALID
         end)
    | _ => ([{| Zod.path := p;
                Zod.message :=
                  Zod.invalidTypeMessage None None (u "object") input |}],
            Zod.INVALID)
    end.

(** The cross-field rule of the schema. *)
Definition endAfterStart (data : EmploymentFormData) : bool :=
  match employmentEndDate data with
  | Some endDate =>
      if (endDate <=? employmentStartDate data)%Z then false else true
  | None => true
  end.

Definition employmentSchema : Zod.schema EmploymentFormData :=
  Zod.refine employmentObject endAfterStart
    [k_employmentEndDate] ERROR_MESSAGES.employmentEndDate_beforeStart.

End EmploymentSchema.

(** ** Dates: the calendar and the local time of [Date] *)

Module JsDate.

Definition msPerDay : Z := 86400000.
Definition msPerMinute : Z := 60000.

Local Open Scope Z_scope.

(** The day number (days since 1970-01-01) of a civil date of the
    proleptic Gregorian calendar, months counted from 1. *)
Definition daysFromCivil (y m d : Z) : Z :=
  let y := if m <=? 2 then y - 1 else y in
  let era := y / 400 in
  let yoe := y - era * 400 in
  let mp := if 2 <? m then m - 3 else m + 9 in
  let doy := (153 * mp + 2) / 5 + d - 1 in
  let doe := yoe * 365 + yoe / 4 - yoe / 100 + doy in
  era * 146097 + doe - 719468.

(** The civil date (year, month from 1, day of the month) of a day
    number. *)
Definition civilFromDays (day : Z) : Z * Z * Z :=
  let z := day + 719468 in
  let era := z / 146097 in
  let doe := z - era * 146097 in
  let yoe := (doe - doe / 1460 + doe / 36524 - doe / 146096) / 365 in
  let doy := doe - (365 * yoe + yoe / 4 - yoe / 100) in
  let mp := (5 * doy + 2) / 153 in
  let d := doy - (153 * mp + 2) / 5 + 1 in
  let m := if mp <? 10 then mp + 3 else mp - 9 in
  let y := yoe + era * 400 in
  (if m <=? 2 then y + 1 else y, m, d).

(** [YearFromTime], [MonthFromTime] (from 0) and [DateFromTime]. *)
Definition yearFromTime (t : Z) : Z :=
  let '(y, _, _) := civilFromDays (t / msPerDay) in y.
Definition monthFromTime (t : Z) : Z :=
  let '(_, m, _) := civilFromDays (t / msPerDay) in m - 1.
Definition dateFromTime (t : Z) : Z :=
  let '(_, _, d) := civilFromDays (t / msPerDay) in d.

(** [MakeDay]: a month outside 0..11 carries into the year and a day
    outside the month carries into the neighbouring months. *)
Definition makeDay (year month date : Z) : Z :=
  daysFromCivil (year + month / 12) (month mod 12 + 1) 1 + date - 1.

Definition makeDate (day time : Z) : Z := day * msPerDay + time.

(** [TimeClip]: a time value is at most 8.64e15 ms away from the epoch;
    beyond that the date is invalid. *)
Definition maxTime : Z := 8640000000000000.

Definition timeClip (t : Z) : option Z :=
  if Z.abs t <=? maxTime then Some t else None.

(** The local time zone: the offset of local time from UTC (milliseconds,
    east positive) in force before the first transition, and the
    transitions, each the instant from which a new offset is in force.  The
    transitions are in ascending order and further apart than the offsets
    differ, as in every zone of the time zone database. *)
Record zone := { initialOffset : Z; transitions : list (Z * Z) }.

(** A zone without transitions, [minutes] east of UTC. *)
Definition fixed (minutes : Z) : zone :=
  {| initialOffset := minutes * msPerMinute; transitions := [] |}.

Fixpoint offsetFrom (offset : Z) (rest : list (Z * Z)) (t : Z) : Z :=
  match rest with
  | [] => offset
  | (instant, offset') :: rest' =>
      if t <? instant then offset else offsetFrom offset' rest' t
  end.

(** [UTC(t)] from the offset in force and the transitions to come.  A
    local time that the clock shows twice, around a transition to a smaller
    offset, is the earlier of the two instants; a local time that the clock
    skips, at a transition to a larger offset, is read with the offset
    before the transition. *)
Fixpoint utcFrom (offset : Z) (rest : list (Z * Z)) (local : Z) : Z :=
  match rest with
  | [] => local - offset
  | (instant, offset') :: rest' =>
      if local - offset <? instant then local - offset
      else if local - offset' <? instant then local - offset
      else utcFrom offset' rest' local
  end.

Section Zone.

Variable z : zone.

(** The offset of local time at an instant. *)
Definition offsetAt (t : Z) : Z :=
  offsetFrom (initialOffset z) (transitions z) t.

(** [LocalTime(t)] and [UTC(t)]. *)
Definition localTime (t : Z) : Z := t + offsetAt t.
Definition utc (local : Z) : Z :=
  utcFrom (initialOffset z) (transitions z) local.

(** The getters, on the time value of a valid date. *)
Definition getFullYear (t : Z) : Z := yearFromTime (localTime t).
(** Months are counted from 0. *)
Definition getMonth (t : Z) : Z := monthFromTime (localTime t).
Definition getDate (t : Z) : Z := dateFromTime (localTime t).

(** [new Date(year, month, date)]: midnight of a local date; a year from 0
    to 99 stands for 1900 to 1999. *)
Definition newDate (year month date : Z) : option Z :=
  let yr := if (0 <=? year) && (year <=? 99) then 1900 + year else year in
  timeClip (utc (makeDate (makeDay yr month date) 0)).

(** The setters, on the time value of a valid date; the result is the new
    time value, [None] when it is out of range. *)
Definition setDate (t : Z) (date : Z) : option Z :=
  let local := localTime t in
  timeClip
    (utc (makeDate (makeDay (yearFromTime local) (monthFromTime local) date)
            (local mod msPerDay))).

Definition setMonth (t : Z) (month : Z) : option Z :=
  let local := localTime t in
  timeClip
    (utc (makeDate (makeDay (yearFromTime local) month (dateFromTime local))
            (local mod msPerDay))).

Definition setHours (t : Z) (hour min sec ms : Z) : option Z :=
  let local := localTime t in
  timeClip
    (utc (makeDate (local / msPerDay)
            (hour * 3600000 + min * 60000 + sec * 1000 + ms))).

End Zone.

End JsDate.

(** ** The part of dayjs that [calculateTotalIncome] uses *)

Module Dayjs.

Local Open Scope Z_scope.

(** A dayjs object wraps a [Date]: its time value, [None] when invalid. *)
Definition t := option Z.

Definition isValid (d : t) : bool :=
  match d with Some _ => true | None => false end.

(** [a.isBefore(b)] without a unit compares the time values. *)
Definition isBefore (a b : t) : bool :=
  match a, b with
  | Some ta, Some tb => ta <? tb
  | _, _ => false
  end.

Section Zone.

Variable z : JsDate.zone.

(** [d.daysInMonth()] is [d.endOf('month').$D]: the day of the month of the
    last millisecond of day 0 of the following month. *)
Definition daysInMonth (time : Z) : option Z :=
  match JsDate.newDate z (JsDate.getFullYear z time)
          (JsDate.getMonth z time + 1) 0 with
  | Some lastDay =>
      match JsDate.setHours z lastDay 23 59 59 999 with
      | Some lastMoment => Some (JsDate.getDate z lastMoment)
      | None => None
      end
  | None => None
  end.

(** [d.add(n, 'month')] is [d.set('month', d.$M + n)]: go to the first of
    the month, set the month, then restore the day of the month, capped by
    the length of the month reached.  Once a date is invalid it stays so. *)
Definition addMonths (time : Z) (n : Z) : t :=
  match JsDate.setDate z time 1 with
  | Some first =>
      match JsDate.setMonth z first (JsDate.getMonth z time + n) with
      | Some moved =>
          match daysInMonth moved with
          | Some days =>
              JsDate.setDate z moved (Z.min (JsDate.getDate z time) days)
          | None => None
          end
      | None => None
      end
  | None => None
  end.

(** The difference of two time values as a number, NaN when one of the
    dates is invalid. *)
Definition minus (a b : t) : number :=
  match a, b with
  | Some ta, Some tb => Num.ofZ (ta - tb)
  | _, _ => Num.NaN
  end.

(** The body of [monthDiff] after its first test. *)
Definition monthDiffFrom (a b : Z) : number :=
  let wholeMonthDiff :=
    (JsDate.getFullYear z b - JsDate.getFullYear z a) * 12
    + (JsDate.getMonth z b - JsDate.getMonth z a) in
  let anchor := addMonths a wholeMonthDiff in
  let c := Num.lt (minus (Some b) anchor) Num.zero in
  let anchor2 := addMonths a (wholeMonthDiff + (if c then -1 else 1)) in
  let fraction :=
    Num.div (minus (Some b) anchor)
      (if c then minus anchor anchor2 else minus anchor2 anchor) in
  let r := Num.neg (Num.add (Num.ofZ wholeMonthDiff) fraction) in
  if Num.truthy r then r else Num.zero.

Definition monthDiff (a b : Z) : number :=
  if JsDate.getDate z a <? JsDate.getDate z b
  then Num.neg (monthDiffFrom b a)
  else monthDiffFrom a b.

(** [a.diff(b, 'year', true)] *)
Definition diffYears (a b : Z) : number :=
  Num.div (monthDiff a b) (Num.ofZ 12).

End Zone.

End Dayjs.

(** ** The part of currency.js that [calculateTotalIncome] uses *)

Module Currency.

Local Open Scope Z_scope.

(** [Math.pow(10, precision)] for the default precision 2. *)
Definition precision : number := Num.ofZ 100.

(** [Number(x.toFixed(4))]: the number nearest to the decimal with four
    fractional digits nearest to [x] (the larger one when two are equally
    near); numbers of magnitude 1e21 and more, infinities and NaN are
    printed in full and read back unchanged. *)
Definition toFixed4 (x : number) : number :=
  match x with
  | S754_zero _ => S754_zero false
  | S754_finite s m e =>
      if Num.le (Num.ofZ (10 ^ 21)) (S754_finite false m e) then x
      else
        let n :=
          if 0 <=? e then Zpos m * 2 ^ e * 10000
          else (2 * Zpos m * 10000 + 2 ^ (- e)) / (2 * 2 ^ (- e)) in
        match n with
        | Zpos p => Num.div (S754_finite s p 0) (Num.ofZ 10000)
        | _ => S754_zero s
        end
  | _ => x
  end.

(** [Math.round]: the nearest integer, the larger one at a tie. *)
Definition round (x : number) : number :=
  match x with
  | S754_finite s m e =>
      if 0 <=? e then x
      else
        let signed := if s then - Zpos m else Zpos m in
        let r := (2 * signed + 2 ^ (- e)) / (2 * 2 ^ (- e)) in
        if r =? 0 then S754_zero s else Num.ofZ r
  | _ => x
  end.

Record t := { intValue : number; value : number }.

(** [parse] of a number with the default settings. *)
Definition parse (v : number) : number :=
  round (toFixed4 (Num.mul v precision)).

Definition currency (v : number) : t :=
  let i := parse v in
  {| intValue := i; value := Num.div i precision |}.

Definition multiply (c : t) (n : number) : t :=
  currency (Num.div (Num.mul (intValue c) n) precision).

End Currency.

(** ** src/utils/calculations.ts *)

(** What the computation reads from its environment: the current time and
    the local time zone. *)
Record clock := { now : Z; zone : JsDate.zone }.

(** [Date | null]: [None] is [null], [Some None] an invalid [Date]; the
    time value of a valid [Date] is at most [JsDate.maxTime] away from the
    epoch. *)
Definition dateOrNull := option (option Z).

(** The [try] block of [calculateTotalIncome]. *)
Definition calculateTotalIncomeTry (env : clock) (annualIncome : value)
    (startDate endDate : dateOrNull) : result number :=
  match annualIncome with
  | JNumber income =>
      if Num.isNaN income then
        Throw (u "Annual income must be a valid number")
      else
        match startDate with
        | None => Ok Num.zero
        | Some startTime =>
            if negb (Num.truthy income) || Num.le income Num.zero then
              Ok Num.zero
            else
              let start : Dayjs.t := startTime in
              let end_ : Dayjs.t :=
                match endDate with
                | Some endTime => endTime
                | None => Some (now env)
                end in
              if negb (Dayjs.isValid start) then
                Throw (u "Invalid start date")
              else if match endDate with Some _ => true | None => false end
                      && negb (Dayjs.isValid end_) then
                Throw (u "Invalid end date")
              else if Dayjs.isBefore end_ start then
                Ok Num.zero
              else
                match end_, start with
                | Some te, Some ts =>
                    let years := Dayjs.diffYears (zone env) te ts in
                    let total :=
                      Currency.multiply (Currency.currency income) years in
                    Ok (Currency.value total)
                | _, _ => Ok Num.NaN
                end
        end
  | _ => Throw (u "Annual income must be a valid number")
  end.

(** The [catch] block logs the error and returns 0. *)
Definition calculateTotalIncome (env : clock) (annualIncome : value)
    (startDate endDate : dateOrNull) : number :=
  match calculateTotalIncomeTry env annualIncome startDate endDate with
  | Ok total => total
  | Throw _ => Num.zero
  end.

(** ** src/utils/currencies.ts *)

Record currencyInfo := {
  code : jsstring;
  symbol : jsstring;
  name : jsstring
}.

Definition SUPPORTED_CURRENCIES : list currencyInfo :=
  [ {| code := u "USD"; symbol := [36%N]; name := u "US Dollar" |};
    {| code := u "EUR"; symbol := [8364%N]; name := u "Euro" |};
    {| code := u "GBP"; symbol := [163%N]; name := u "British Pound" |};
    {| code := u "INR"; symbol := [8377%N]; name := u "Indian Rupee" |} ].

(** [SUPPORTED_CURRENCIES.find(c => c.code === code)]; [None] is
    [undefined]. *)
Definition getCurrencyInfo (c : jsstring) : option currencyInfo :=
  find (fun info => JsString.eqb (code info) c) SUPPORTED_CURRENCIES.

(** The locales the code maps to a currency, in the order of the object
    literal. *)
Definition localeMap : list (jsstring * jsstring) :=
  [ (u "en-US", u "USD"); (u "en-GB", u "GBP"); (u "de-DE", u "EUR");
    (u "fr-FR", u "EUR"); (u "es-ES", u "EUR"); (u "it-IT", u "EUR");
    (u "en-IN", u "INR") ].

(** The names every object literal inherits from [Object.prototype]; they
    matter because [locale in localeMap] looks through the prototype. *)
Definition objectPrototypeNames : list jsstring :=
  [ u "constructor"; u "hasOwnProperty"; u "isPrototypeOf";
    u "propertyIsEnumerable"; u "toLocaleString"; u "toString"; u "valueOf";
    u "__defineGetter__"; u "__defineSetter__"; u "__lookupGetter__";
    u "__lookupSetter__"; u "__proto__" ].

Fixpoint lookupLocale (locale : jsstring) (m : list (jsstring * jsstring))
  : option jsstring :=
  match m with
  | [] => None
  | (k, c) :: m' => if JsString.eqb k locale then Some c else lookupLocale locale m'
  end.

(** [s.startsWith(prefix)] *)
Fixpoint startsWith (prefix s : jsstring) : bool :=
  match prefix, s with
  | [], _ => true
  | x :: prefix', y :: s' => N.eqb x y && startsWith prefix' s'
  | _ :: _, [] => false
  end.

(** [s.split("-")[0]]: the part of [s] before its first hyphen. *)
Fixpoint beforeHyphen (s : jsstring) : jsstring :=
  match s with
  | [] => []
  | c :: s' => if N.eqb c 45 then [] else c :: beforeHyphen s'
  end.

(** What [getDefaultCurrency] returns: a currency code of the map, or, when
    the locale is the name of an inherited member, that member of
    [Object.prototype]. *)
Inductive defaultCurrency :=
| Code (c : jsstring)
| Inherited (member : jsstring).

(** [navigatorLanguage] is [navigator.language]. *)
Definition getDefaultCurrency (navigatorLanguage : jsstring) : defaultCurrency :=
  let locale :=
    match navigatorLanguage with
    | [] => u "en-US"
    | _ => navigatorLanguage
    end in
  match lookupLocale locale localeMap with
  | Some c => Code c
  | None =>
      if existsb (JsString.eqb locale) objectPrototypeNames then
        Inherited locale
      else
        let language := beforeHyphen locale in
        match find (fun entry => startsWith (language ++ [45%N]) (fst entry))
                localeMap with
        | Some (_, c) => Code c
        | None => Code (u "USD")
        end
  end.

(** ** src/components/EmploymentForm.tsx: the debounced total *)

Module EmploymentForm.

(** The values of the four watched fields; [None] stands for a field
    without a value ([undefined] or [null]). *)
Record watched := {
  selectedCurrency : option jsstring;
  annualIncome : option number;
  startDate : dateOrNull;
  endDate : dateOrNull
}.

(** The arguments of one call of [debouncedCalculate]. *)
Record calcArgs := {
  currencyCode : jsstring;
  income : number;
  start : dateOrNull;
  end_ : dateOrNull
}.

(** The arguments the effect passes:
    [selectedCurrency || 'USD', annualIncome || 0, startDate || null,
     endDate || null]. *)
Definition effectArgs (w : watched) : calcArgs :=
  {| currencyCode :=
       match selectedCurrency w with
       | Some (c :: s) => c :: s
       | _ => u "USD"
       end;
     income :=
       match annualIncome w with
       | Some x => if Num.truthy x then x else Num.zero
       | None => Num.zero
       end;
     start := startDate w;
     end_ := endDate w |}.

(** What the total income display shows: the initial text, or the amount
    handed to the formatter together with the currency symbol. *)
Inductive display :=
| Initial
| Formatted (symbol : jsstring) (amount : number).

(** The delay of [useDebouncedCallback], in milliseconds. *)
Definition delay : Z := 500.

(** The state of one form instance: the deadline of the pending timer of
    the debounced callback, the arguments of its latest call, the calls
    of the wrapped function so far, and the displayed total. *)
Record state := {
  timer : option Z;
  lastArgs : option calcArgs;
  recomputations : list calcArgs;
  totalIncome : display
}.

Definition initial : state :=
  {| timer := None; lastArgs := None; recomputations := [];
     totalIncome := Initial |}.

Inductive event :=
| Change (time : Z) (fields : watched)  (* a watched field changes *)
| TimerTask (time : Z).                 (* the timer task gets to run *)

Section Zone.

Variable z : JsDate.zone.

(** The wrapped function: compute the total and show it. *)
Definition calculate (time : Z) (a : calcArgs) : display :=
  let totalAmount :=
    calculateTotalIncome {| now := time; zone := z |}
      (JNumber (income a)) (start a) (end_ a) in
  let sym :=
    match getCurrencyInfo (currencyCode a) with
    | Some info =>
        match symbol info with [] => [36%N] | s => s end
    | None => [36%N]
    end in
  Formatted sym totalAmount.

(** A call of the debounced function (trailing edge, no maximal wait):
    the arguments are kept and the timer is restarted.  The timer task
    calls the wrapped function with the kept arguments once the delay
    has passed since the latest call. *)
Definition step (st : state) (ev : event) : state :=
  match ev with
  | Change time fields =>
      {| timer := Some (time + delay)%Z;
         lastArgs := Some (effectArgs fields);
         recomputations := recomputations st;
         totalIncome := totalIncome st |}
  | TimerTask time =>
      match timer st, lastArgs st with
      | Some deadline, Some a =>
          if (deadline <=? time)%Z then
            {| timer := None;
               lastArgs := lastArgs st;
               recomputations := recomputations st ++ [a];
               totalIncome := calculate time a |}
          else st
      | _, _ => st
      end
  end.

Definition run (st : state) (evs : list event) : state :=
  fold_left step evs st.

End Zone.

End EmploymentForm.

(** ** src/components/FormRenderer.tsx *)




(** ** src/components/EmploymentForm.tsx: the schema handed to the renderer *)





(* ================================================================= *)
(** * Part II: the vocabulary of the properties *)
(* ================================================================= *)

(** ** sanitizeString *)

(** The entity the specification assigns to one code unit. *)
Definition entity (c : N) : jsstring :=
  if N.eqb c c_amp then u "&amp;"
  else if N.eqb c c_lt then u "&lt;"
  else if N.eqb c c_gt then u "&gt;"
  else if N.eqb c c_quot then u "&quot;"
  else if N.eqb c c_apos then u "&#x27;"
  else if N.eqb c c_slash then u "&#x2F;"
  else [c].


(** ** sanitizeFormData *)

(** Induction on values that reaches the elements of arrays and the property
    values of objects. *)
Section ValueInduction.
Variable P : value -> Prop.
Hypothesis Hundef : P JUndefined.
Hypothesis Hnull : P JNull.
Hypothesis Hbool : forall b, P (JBool b).
Hypothesis Hnum : forall x, P (JNumber x).
Hypothesis Hstr : forall s, P (JString s).
Hypothesis Hdate : forall t, P (JDate t).
Hypothesis Harr : forall elems, Forall P elems -> P (JArray elems).
Hypothesis Hobj :
  forall ps, Forall (fun kv => P (snd kv)) ps -> P (JObject ps).
Hypothesis Hbare :
  forall ps, Forall (fun kv => P (snd kv)) ps -> P (JBare ps).

Fixpoint value_nested_ind (v : value) : P v :=
  match v with
  | JUndefined => Hundef
  | JNull => Hnull
  | JBool b => Hbool b
  | JNumber x => Hnum x
  | JString s => Hstr s
  | JDate t => Hdate t
  | JArray elems =>
      Harr elems ((fix all (l : list value) : Forall P l :=
               match l with
               | [] => Forall_nil P
               | x :: l' => Forall_cons x (value_nested_ind x) (all l')
               end) elems)
  | JObject ps =>
      Hobj ps ((fix all (l : props) : Forall (fun kv => P (snd kv)) l :=
               match l with
               | [] => Forall_nil _
               | kv :: l' =>
                   Forall_cons kv (value_nested_ind (snd kv)) (all l')
               end) ps)
  | JBare ps =>
      Hbare ps ((fix all (l : props) : Forall (fun kv => P (snd kv)) l :=
               match l with
               | [] => Forall_nil _
               | kv :: l' =>
                   Forall_cons kv (value_nested_ind (snd kv)) (all l')
               end) ps)
  end.
End ValueInduction.

(** The values the loop hands to the recursive call: objects that are
    neither [null], nor a date, nor an array. *)
Definition plainObject (v : value) : bool :=
  match v with JObject _ | JBare _ => true | _ => false end.

(** An object on which [hasOwnProperty] cannot be called: an ordinary
    object with an own property of that name, or an object without a
    prototype. *)
Definition withoutMethod (v : value) : bool :=
  match v with
  | JObject ps => hasOwn k_hasOwnProperty ps
  | JBare _ => true
  | _ => false
  end.

(** Some object the traversal enters (the input itself, or a plain object
    reached through property values) has a property to visit and no
    [hasOwnProperty] method to call. *)
Fixpoint shadowed (data : value) : bool :=
  match data with
  | JObject ps =>
      hasOwn k_hasOwnProperty ps
      || existsb (fun kv => plainObject (snd kv) && shadowed (snd kv)) ps
  | JBare ps => match ps with [] => false | _ => true end
  | JArray elems => existsb (fun v => plainObject v && shadowed v) elems
  | _ => false
  end.

Fixpoint distinct (keys : list jsstring) : bool :=
  match keys with
  | [] => true
  | k :: keys' => negb (existsb (JsString.eqb k) keys') && distinct keys'
  end.

(** The enumerated keys of every entered object are pairwise distinct (a
    property of every JavaScript object). *)
Fixpoint distinctKeys (data : value) : bool :=
  match data with
  | JObject ps | JBare ps =>
      distinct (map fst ps)
      && forallb (fun kv => negb (plainObject (snd kv)) || distinctKeys (snd kv)) ps
  | JArray elems =>
      distinct (map fst (indexed 0 elems))
      && forallb (fun v => negb (plainObject v) || distinctKeys v) elems
  | _ => true
  end.

(** The sanitised form of a property value, in the words of the
    specification: strings are escaped, nested plain objects are sanitised
    key by key into an ordinary object, everything else (dates, arrays,
    numbers, booleans, [null], [undefined]) is kept. *)
Fixpoint sanitizedValue (v : value) : value :=
  match v with
  | JString _ => JString (sanitizeString v)
  | JObject ps | JBare ps =>
      JObject
        ((fix record (l : props) : props :=
            match l with
            | [] => []
            | (k, w) :: l' =>
                if JsString.eqb k k_proto then record l'
                else (k, sanitizedValue w) :: record l'
            end) ps)
  | _ => v
  end.

(** The sanitised record: every enumerated property with its sanitised
    value, under the same key and in the same order; the name [__proto__]
    is never stored. *)
Fixpoint sanitizedRecord (ps : props) : props :=
  match ps with
  | [] => []
  | (k, w) :: ps' =>
      if JsString.eqb k k_proto then sanitizedRecord ps'
      else (k, sanitizedValue w) :: sanitizedRecord ps'
  end.

(** The loop of [sanitizeFormData] over the properties still to visit. *)
Definition forIn (data : value) : props -> props -> result props :=
  fix loop (todo : props) (sanitized : props) : result props :=
    match todo with
    | [] => Ok sanitized
    | (key, v) :: todo' =>
        match sanitizeEntry sanitizeFormData data key v sanitized with
        | Ok sanitized' => loop todo' sanitized'
        | Throw m => Throw m
        end
    end.

(** An object with the built-in [hasOwnProperty] in reach answers [true]
    for each of its enumerated keys; arrays and dates always do. *)
Definition callable (data : value) : Prop := withoutMethod data = false.

(** What the loop stores for a property value. *)
Definition stored (v : value) : value :=
  if plainObject v then
    match sanitizeFormData v with Ok w => w | Throw _ => JUndefined end
  else sanitizedValue v.

Definition store (acc : props) (kv : jsstring * value) : props :=
  setProp (fst kv) (stored (snd kv)) acc.

(** The values [sanitizeFormData] accepts: non-null values of type object. *)
Definition entered (v : value) : bool :=
  truthy v && jstype_eqb (typeof v) TObject.

(** The three facts proved together by induction on the value. *)
Definition sanitizes (v : value) : Prop :=
  entered v = true ->
  (shadowed v = true -> exists m, sanitizeFormData v = Throw m)
  /\ (shadowed v = false -> exists w, sanitizeFormData v = Ok w)
  /\ (shadowed v = false -> distinctKeys v = true ->
      sanitizeFormData v = Ok (JObject (sanitizedRecord (enumerate v)))).

(** A record with a string, a number, a date, an array and a nested object. *)
Definition exampleData : value :=
  JObject [(u "employerName", JString (u "<b>Evil & Co</b>"));
           (u "annualGrossIncome", JNumber (Num.ofZ 50000));
           (u "employmentStartDate", JDate (Some 1672531200000%Z));
           (u "tags", JArray [JString (u "<i>")]);
           (u "address", JObject [(u "street", JString (u "1/2 Main"))])].

(** ** Validation *)

(** A schema accepts a value when parsing it reports no issue. *)
Definition accepts {A : Type} (s : Zod.schema A) (v : value) : bool :=
  match Zod.safeParse s v with
  | Zod.success _ => true
  | Zod.failure _ => false
  end.

Definition isString (v : value) : bool :=
  match v with JString _ => true | _ => false end.
Definition isUndefined (v : value) : bool :=
  match v with JUndefined => true | _ => false end.
Definition isRealNumber (v : value) : bool :=
  match v with JNumber x => negb (Num.isNaN x) | _ => false end.

(** The four fields of a record other than the two dates have the types the
    schema declares for them (a string, a string, a number that is not NaN,
    an optional string), so that their parsers are not aborted. *)
Definition fieldsTyped (ps : props) : bool :=
  isString (get k_employerName ps)
  && isString (get k_currency ps)
  && isRealNumber (get k_annualGrossIncome ps)
  && (isUndefined (get k_notes ps) || isString (get k_notes ps)).

(** A schema reports no issue on the value found at a path. *)
Definition acceptsAt {A : Type} (s : Zod.schema A) (p : list jsstring)
    (v : value) : bool :=
  match s p v with
  | (_, Zod.OK false _) => true
  | _ => false
  end.

(** The four fields other than the two dates are accepted by their parsers. *)
Definition fieldsAccepted (ps : props) : bool :=
  acceptsAt employerNameSchema [k_employerName] (get k_employerName ps)
  && acceptsAt currencySchema [k_currency] (get k_currency ps)
  && acceptsAt annualGrossIncomeSchema [k_annualGrossIncome]
       (get k_annualGrossIncome ps)
  && acceptsAt notesSchema [k_notes] (get k_notes ps).

Definition futureIssue : Zod.issue :=
  {| Zod.path := [k_employmentStartDate];
     Zod.message := ERROR_MESSAGES.employmentStartDate_future |}.

Definition endDateIssue : Zod.issue :=
  {| Zod.path := [k_employmentEndDate];
     Zod.message := ERROR_MESSAGES.employmentEndDate_beforeStart |}.

(** A message that is neither of the two date messages. *)
Definition otherMessage (i : Zod.issue) : bool :=
  negb (JsString.eqb (Zod.message i)
          ERROR_MESSAGES.employmentStartDate_future)
  && negb (JsString.eqb (Zod.message i)
             ERROR_MESSAGES.employmentEndDate_beforeStart).

Definition stringCheckOther (p : list jsstring) (c : Zod.stringCheck) : bool :=
  match c with
  | Zod.SMin _ m | Zod.SMax _ m | Zod.SRegex _ m =>
      otherMessage {| Zod.path := p; Zod.message := m |}
  | Zod.STrim => true
  end.

Definition numberCheckOther (p : list jsstring) (c : Zod.numberCheck) : bool :=
  match c with
  | Zod.NMin _ _ m | Zod.NMax _ _ m =>
      otherMessage {| Zod.path := p; Zod.message := m |}
  end.

(** Sample records: employment from 2023-01-01 to 2023-06-01, the dates in
    the right and in the wrong order. *)
Definition exampleEmployment (startDate endDate : Z) : props :=
  [(k_employerName, JString (u "Acme Corporation"));
   (k_currency, JString (u "USD"));
   (k_annualGrossIncome, JNumber (Num.ofZ 50000));
   (k_employmentStartDate, JDate (Some startDate));
   (k_employmentEndDate, JDate (Some endDate))].

(** The same record with the income typed into a text field: a string
    where the schema declares a number. *)
Definition mistypedEmployment (startDate endDate : Z) : props :=
  [(k_employerName, JString (u "Acme Corporation"));
   (k_currency, JString (u "USD"));
   (k_annualGrossIncome, JString (u "50000"));
   (k_employmentStartDate, JDate (Some startDate));
   (k_employmentEndDate, JDate (Some endDate))].

(** ** The derived total *)

(** The moment the computation takes for the end of the employment. *)
Definition endMoment (env : clock) (endDate : dateOrNull) : option Z :=
  match endDate with
  | Some time => time
  | None => Some (now env)
  end.

(** Midnight UTC of 2023-01-01, 2024-01-01 and 2025-01-01. *)
Definition t2023 : Z := 1672531200000.
Definition t2024 : Z := 1704067200000.
Definition t2025 : Z := 1735689600000.

(** Structural equality of numbers. *)
Definition sameNumber (a b : number) : bool :=
  match a, b with
  | S754_zero s, S754_zero s' => Bool.eqb s s'
  | S754_infinity s, S754_infinity s' => Bool.eqb s s'
  | S754_nan, S754_nan => true
  | S754_finite s m e, S754_finite s' m' e' =>
      Bool.eqb s s' && Pos.eqb m m' && Z.eqb e e'
  | _, _ => false
  end.

(** The offsets of the zones of the world are whole quarters of an hour;
    [quarters lo len] are [len] of them, from [15 * lo] minutes on. *)
Definition quarters (lo : Z) (len : nat) : list Z :=
  map (fun i => (15 * (lo + Z.of_nat i))%Z) (seq 0 len).

(** Midnight UTC of 2023-07-01. *)
Definition t2023July : Z := 1688169600000.

(** The total of an income of 50000 between two dates. *)
Definition totalOf50000 (z : JsDate.zone) (startTime endTime : Z) : number :=
  calculateTotalIncome {| now := 0; zone := z |}
    (JNumber (Num.ofZ 50000)) (Some (Some startTime)) (Some (Some endTime)).

(** The whole years of one zone with a fixed offset (in minutes): each of
    the years 2023 and 2024 counts as one year and gives the income, the
    two years together give twice the income, and the first half of 2023
    gives half of it. *)
Definition oneYearCheck (offset : Z) : bool :=
  sameNumber (Dayjs.diffYears (JsDate.fixed offset) t2024 t2023) (Num.ofZ 1)
  && sameNumber (Dayjs.diffYears (JsDate.fixed offset) t2025 t2024)
       (Num.ofZ 1)
  && sameNumber (totalOf50000 (JsDate.fixed offset) t2023 t2024)
       (Num.ofZ 50000)
  && sameNumber (totalOf50000 (JsDate.fixed offset) t2024 t2025)
       (Num.ofZ 50000)
  && sameNumber (totalOf50000 (JsDate.fixed offset) t2023 t2025)
       (Num.ofZ 100000)
  && sameNumber (totalOf50000 (JsDate.fixed offset) t2023 t2023July)
       (Num.ofZ 25000).

(** The zone America/Nuuk between October 2022 and March 2024: three hours
    west of UTC until 2023-03-26 01:00 UTC, two hours west from then on
    (the clocks went forward in March 2023 and were not put back). *)
Definition nuuk : JsDate.zone :=
  {| JsDate.initialOffset := (-180) * JsDate.msPerMinute;
     JsDate.transitions := [(1679792400000, (-120) * JsDate.msPerMinute)] |}%Z.

(** The zone Europe/Berlin between April 2022 and March 2024, with its
    three changes between summer and winter time. *)
Definition berlin : JsDate.zone :=
  {| JsDate.initialOffset := 120 * JsDate.msPerMinute;
     JsDate.transitions :=
       [(1667091600000, 60 * JsDate.msPerMinute);
        (1679792400000, 120 * JsDate.msPerMinute);
        (1698541200000, 60 * JsDate.msPerMinute)] |}%Z.

(** 50005.6, the number the literal denotes. *)
Definition n50005_6 : number :=
  Num.div (Num.ofZ 500056) (Num.ofZ 10).

(** ** The debounced recomputation *)

(** A burst: every event comes at or after the latest change and less than
    the delay after it. *)
Fixpoint burst (latest : Z) (evs : list EmploymentForm.event) : Prop :=
  match evs with
  | [] => True
  | EmploymentForm.Change time _ :: evs' =>
      (latest <= time < latest + EmploymentForm.delay)%Z /\ burst time evs'
  | EmploymentForm.TimerTask time :: evs' =>
      (latest <= time < latest + EmploymentForm.delay)%Z /\ burst latest evs'
  end.

(** The time and the fields of the latest change of a burst. *)
Fixpoint latestChange (time : Z) (fields : EmploymentForm.watched)
    (evs : list EmploymentForm.event) : Z * EmploymentForm.watched :=
  match evs with
  | [] => (time, fields)
  | EmploymentForm.Change time' fields' :: evs' =>
      latestChange time' fields' evs'
  | EmploymentForm.TimerTask _ :: evs' => latestChange time fields evs'
  end.

Definition changes (evs : list EmploymentForm.event) : nat :=
  List.length
    (filter (fun ev => match ev with
                       | EmploymentForm.Change _ _ => true
                       | EmploymentForm.TimerTask _ => false
                       end) evs).

(** Ten changes of the income within 200 ms, starting at time [t]. *)
Definition tenEdits (t : Z) : list EmploymentForm.event :=
  map (fun i =>
         EmploymentForm.Change (t + 20 * Z.of_nat i)%Z
           {| EmploymentForm.selectedCurrency := Some (u "EUR");
              EmploymentForm.annualIncome := Some (Num.ofZ (Z.of_nat i));
              EmploymentForm.startDate := Some (Some t2023);
              EmploymentForm.endDate := Some (Some t2024) |})
      (seq 1 10).

(** One when a timer is pending, zero otherwise. *)
Definition pendingTimers (st : EmploymentForm.state) : nat :=
  match EmploymentForm.timer st with Some _ => 1 | None => 0 end.

(** ** Further vocabulary *)

(** One of the six code units that [sanitizeString] escapes. *)
Definition special (c : N) : bool :=
  existsb (N.eqb c) [c_amp; c_lt; c_gt; c_quot; c_apos; c_slash].

(** One of the five code units that never occur in a sanitised string. *)
Definition markup (c : N) : bool :=
  existsb (N.eqb c) [c_lt; c_gt; c_quot; c_apos; c_slash].

(** Every string of a value that is reached without entering an array is
    free of the five markup characters. *)
Fixpoint escaped (v : value) : bool :=
  match v with
  | JString s => negb (existsb markup s)
  | JObject ps | JBare ps => forallb (fun kv => escaped (snd kv)) ps
  | _ => true
  end.

(** The parsed form data as the object that [handleFormSubmit] receives:
    the keys of the schema in its order, the optional ones only when they
    have a value. *)
Definition formDataObject (data : EmploymentFormData) : value :=
  JObject
    ([(k_employerName, JString (employerName data));
      (k_currency, JString (currency data));
      (k_annualGrossIncome, JNumber (annualGrossIncome data));
      (k_employmentStartDate, JDate (Some (employmentStartDate data)))]
     ++ match employmentEndDate data with
        | Some time => [(k_employmentEndDate, JDate (Some time))]
        | None => []
        end
     ++ match notes data with
        | Some text => [(k_notes, JString text)]
        | None => []
        end).

(** The form data with its three texts escaped. *)
Definition escapedFormData (data : EmploymentFormData) : EmploymentFormData :=
  {| employerName := sanitizeString (JString (employerName data));
     currency := sanitizeString (JString (currency data));
     annualGrossIncome := annualGrossIncome data;
     employmentStartDate := employmentStartDate data;
     employmentEndDate := employmentEndDate data;
     notes := match notes data with
              | Some text => Some (sanitizeString (JString text))
              | None => None
              end |}.

(** What the schema accepts, field by field. *)
Definition validRecord (now : Z) (ps : props) (data : EmploymentFormData)
  : Prop :=
  (exists s, get k_employerName ps = JString s
             /\ (1 <= List.length s <= 100)%nat
             /\ employerName data = JsString.trim s)
  /\ (exists a b c, get k_currency ps = JString [a; b; c]
                    /\ (65 <= a <= 90 /\ 65 <= b <= 90 /\ 65 <= c <= 90)%N
                    /\ currency data = [a; b; c])
  /\ (exists x, get k_annualGrossIncome ps = JNumber x
                /\ Num.le MIN_ANNUAL_INCOME x = true
                /\ Num.le x MAX_ANNUAL_INCOME = true
                /\ annualGrossIncome data = x)
  /\ (exists ts, get k_employmentStartDate ps = JDate (Some ts)
                 /\ (ts <= now)%Z
                 /\ employmentStartDate data = ts
                 /\ ((get k_employmentEndDate ps = JUndefined
                      /\ employmentEndDate data = None)
                     \/ (exists te,
                            get k_employmentEndDate ps = JDate (Some te)
                            /\ (ts < te)%Z
                            /\ employmentEndDate data = Some te)))
  /\ ((get k_notes ps = JUndefined /\ notes data = None)
      \/ (exists s, get k_notes ps = JString s
                    /\ (List.length s <= 500)%nat
                    /\ notes data = Some s)).

Definition requiredIssue : Zod.issue :=
  {| Zod.path := [k_employmentStartDate];
     Zod.message := ERROR_MESSAGES.employmentStartDate_required |}.



(* ================================================================= *)
(** * Part III: properties *)
(* ================================================================= *)

(** ** sanitizeString *)

Lemma replaceAll_app c r a b :
  JsString.replaceAll c r (a ++ b)
  = JsString.replaceAll c r a ++ JsString.replaceAll c r b.
Proof.
  induction a as [|x a IH]; simpl; [reflexivity|].
  now rewrite IH, app_assoc.
Qed.

Lemma sanitizeString_app a b :
  sanitizeString (JString (a ++ b))
  = sanitizeString (JString a) ++ sanitizeString (JString b).
Proof.
  unfold sanitizeString. now rewrite !replaceAll_app.
Qed.

Lemma sanitizeString_unit c : sanitizeString (JString [c]) = entity c.
Proof.
  unfold sanitizeString, entity.
  destruct (N.eqb_spec c c_amp) as [->|Hamp]; [reflexivity|].
  destruct (N.eqb_spec c c_lt) as [->|Hlt]; [reflexivity|].
  destruct (N.eqb_spec c c_gt) as [->|Hgt]; [reflexivity|].
  destruct (N.eqb_spec c c_quot) as [->|Hquot]; [reflexivity|].
  destruct (N.eqb_spec c c_apos) as [->|Hapos]; [reflexivity|].
  destruct (N.eqb_spec c c_slash) as [->|Hslash]; [reflexivity|].
  simpl.
  repeat match goal with
         | H : c <> ?k |- context [N.eqb c ?k] =>
             rewrite (proj2 (N.eqb_neq c k) H); simpl
         end.
  reflexivity.
Qed.

Lemma sanitizeString_flat_map s :
  sanitizeString (JString s) = flat_map entity s.
Proof.
  induction s as [|c s IH]; [reflexivity|].
  change (c :: s) with ([c] ++ s).
  rewrite sanitizeString_app, sanitizeString_unit, IH. reflexivity.
Qed.

(** C1. On a string, [sanitizeString] replaces each of the six code units
    & < > double-quote ' / by its entity and keeps every other code unit;
    the six passes run in the order of the source, ampersand first, and the
    result is the one-pass, per-character escape.  On any value that is not
    a string the result is the empty string. *)
Theorem sanitizeString_spec :
  (forall s, sanitizeString (JString s) = flat_map entity s)
  /\ entity c_amp = u "&amp;" /\ entity c_lt = u "&lt;"
  /\ entity c_gt = u "&gt;" /\ entity c_quot = u "&quot;"
  /\ entity c_apos = u "&#x27;" /\ entity c_slash = u "&#x2F;"
  /\ (forall c, ~ In c [c_amp; c_lt; c_gt; c_quot; c_apos; c_slash] ->
                entity c = [c])
  /\ (forall v, typeof v <> TString -> sanitizeString v = []).
Proof.
  split; [exact sanitizeString_flat_map|].
  repeat (split; [reflexivity|]).
  split.
  - intros c Hc. unfold entity.
    repeat match goal with
           | |- context [N.eqb c ?k] =>
               destruct (N.eqb_spec c k) as [->|?];
               [exfalso; apply Hc; simpl; tauto|]
           end.
    reflexivity.
  - intros v Hv. destruct v; try reflexivity. now elim Hv.
Qed.

(** C6. [sanitizeString] is not idempotent: a second pass escapes again the
    ampersand of the entities the first pass produced.  This happens for
    every string that contains [<] (and so such a string exists). *)
Theorem sanitizeString_not_idempotent :
  (exists s, sanitizeString (JString (sanitizeString (JString s)))
             <> sanitizeString (JString s))
  /\ (forall s, In c_lt s ->
        sanitizeString (JString (sanitizeString (JString s)))
        <> sanitizeString (JString s)).
Proof.
  assert (Hlen : forall t, (List.length t <= List.length (flat_map entity t))%nat).
  { induction t as [|c t IH]; simpl; [lia|].
    rewrite length_app.
    assert (1 <= List.length (entity c))%nat; [|lia].
    unfold entity.
    repeat match goal with
           | |- context [if ?b then _ else _] => destruct b
           end; simpl; lia. }
  assert (Hstrict : forall t, In c_amp t ->
            (List.length t < List.length (flat_map entity t))%nat).
  { induction t as [|c t IH]; simpl; [tauto|].
    intros [->|Hin]; rewrite length_app.
    - specialize (Hlen t). simpl. lia.
    - specialize (IH Hin).
      assert (1 <= List.length (entity c))%nat; [|lia].
      unfold entity.
      repeat match goal with
             | |- context [if ?b then _ else _] => destruct b
             end; simpl; lia. }
  assert (Hall : forall s, In c_lt s ->
            sanitizeString (JString (sanitizeString (JString s)))
            <> sanitizeString (JString s)).
  { intros s Hs Heq.
    rewrite (sanitizeString_flat_map (sanitizeString (JString s))) in Heq.
    assert (Hamp : In c_amp (sanitizeString (JString s))).
    { rewrite sanitizeString_flat_map. apply in_flat_map.
      exists c_lt. split; [assumption|]. simpl. tauto. }
    apply Hstrict in Hamp. rewrite Heq in Hamp. lia. }
  split; [|exact Hall].
  exists [c_lt]. apply Hall. simpl. tauto.
Qed.

Lemma sanitizeString_not_idempotent_witness :
  In c_lt (u "a<b")
  /\ sanitizeString (JString (sanitizeString (JString (u "a<b"))))
     <> sanitizeString (JString (u "a<b")).
Proof.
  split.
  - simpl. tauto.
  - apply (proj2 sanitizeString_not_idempotent). simpl. tauto.
Defined.

Lemma sanitizeString_spec_witness :
  (~ In 97%N [c_amp; c_lt; c_gt; c_quot; c_apos; c_slash]
   /\ entity 97 = [97%N])
  /\ (typeof (JNumber (Num.ofZ 123)) <> TString
      /\ sanitizeString (JNumber (Num.ofZ 123)) = []).
Proof.
  assert (H1 : ~ In 97%N [c_amp; c_lt; c_gt; c_quot; c_apos; c_slash]).
  { simpl. intros [H|[H|[H|[H|[H|[H|[]]]]]]]; discriminate H. }
  assert (H2 : typeof (JNumber (Num.ofZ 123)) <> TString) by discriminate.
  destruct sanitizeString_spec as (_ & _ & _ & _ & _ & _ & _ & Hkeep & Hnon).
  split; split; [exact H1|exact (Hkeep 97%N H1)|exact H2|].
  exact (Hnon (JNumber (Num.ofZ 123)) H2).
Defined.

(** ** sanitizeFormData *)

Lemma sanitizedValue_object ps :
  sanitizedValue (JObject ps) = JObject (sanitizedRecord ps).
Proof.
  reflexivity.
Qed.

Lemma sanitizeFormData_object ps :
  sanitizeFormData (JObject ps)
  = match forIn (JObject ps) ps [] with
    | Ok sanitized => Ok (JObject sanitized)
    | Throw m => Throw (failedPrefix ++ m)
    end.
Proof. reflexivity. Qed.

Lemma forIn_indexed data i elems sanitized :
  (fix loop (i : nat) (todo : list value) (sanitized : props)
     : result props :=
     match todo with
     | [] => Ok sanitized
     | v :: todo' =>
         match sanitizeEntry sanitizeFormData data (indexKey i) v
                 sanitized with
         | Ok sanitized' => loop (S i) todo' sanitized'
         | Throw m => Throw m
         end
     end) i elems sanitized
  = forIn data (indexed i elems) sanitized.
Proof.
  revert i sanitized.
  induction elems as [|v elems IH]; intros i sanitized; [reflexivity|].
  simpl. destruct (sanitizeEntry _ _ _ _ _); [apply IH|reflexivity].
Qed.

Lemma sanitizeFormData_array elems :
  sanitizeFormData (JArray elems)
  = match forIn (JArray elems) (indexed 0 elems) [] with
    | Ok sanitized => Ok (JObject sanitized)
    | Throw m => Throw (failedPrefix ++ m)
    end.
Proof.
  rewrite <- forIn_indexed. reflexivity.
Qed.

Lemma JsString_eqb_eq a b : JsString.eqb a b = true <-> a = b.
Proof.
  revert b. induction a as [|x a IH]; intros [|y b]; simpl;
    try (split; [discriminate|discriminate]); [tauto|].
  rewrite andb_true_iff, N.eqb_eq, IH.
  split; [intros [-> ->]; reflexivity|intros [= -> ->]; tauto].
Qed.

Lemma JsString_eqb_refl a : JsString.eqb a a = true.
Proof. now apply JsString_eqb_eq. Qed.

Lemma hasOwn_In k v ps : In (k, v) ps -> hasOwn k ps = true.
Proof.
  unfold hasOwn. induction ps as [|[k' v'] ps IH]; simpl; [tauto|].
  intros [[= -> ->]|Hin].
  - now rewrite JsString_eqb_refl.
  - destruct (JsString.eqb k' k); [reflexivity|now apply IH].
Qed.

Lemma hasOwn_cons k k' v ps :
  hasOwn k ((k', v) :: ps) = JsString.eqb k' k || hasOwn k ps.
Proof. unfold hasOwn. simpl. now destruct (JsString.eqb k' k). Qed.

Lemma hasOwn_app k ps qs : hasOwn k (ps ++ qs) = hasOwn k ps || hasOwn k qs.
Proof.
  induction ps as [|[k' v] ps IH]; [reflexivity|].
  simpl app. rewrite !hasOwn_cons, IH. now rewrite orb_assoc.
Qed.

Lemma upsert_absent k v ps :
  hasOwn k ps = false -> upsert k v ps = ps ++ [(k, v)].
Proof.
  induction ps as [|[k' w] ps IH]; [reflexivity|].
  rewrite hasOwn_cons. intros H. apply orb_false_iff in H as [Hk Hps].
  simpl. rewrite Hk. now rewrite IH.
Qed.

Lemma callHasOwnProperty_enumerated data k v :
  callable data -> In (k, v) (enumerate data) ->
  callHasOwnProperty data k = Ok true.
Proof.
  unfold callable.
  destruct data; simpl; try reflexivity; try discriminate.
  intros -> Hin. now rewrite (hasOwn_In _ _ _ Hin).
Qed.

Lemma sanitizeEntry_step data k v acc :
  callHasOwnProperty data k = Ok true ->
  sanitizeEntry sanitizeFormData data k v acc
  = if plainObject v then
      match sanitizeFormData v with
      | Ok w => Ok (setProp k w acc)
      | Throw m => Throw m
      end
    else Ok (setProp k (sanitizedValue v) acc).
Proof.
  intros H. unfold sanitizeEntry. rewrite H.
  destruct v; reflexivity.
Qed.

Lemma forIn_ok data todo acc :
  (forall k v, In (k, v) todo -> callHasOwnProperty data k = Ok true) ->
  Forall (fun kv => plainObject (snd kv) = true ->
                    exists w, sanitizeFormData (snd kv) = Ok w) todo ->
  forIn data todo acc = Ok (fold_left store todo acc).
Proof.
  revert acc. induction todo as [|[k v] todo IH]; intros acc Hcall Hok;
    [reflexivity|].
  inversion Hok as [|? ? Hv Hrest]; subst.
  simpl. rewrite sanitizeEntry_step by (apply (Hcall k v); now left).
  unfold store at 2, stored. simpl fst; simpl snd.
  destruct (plainObject v) eqn:Hp.
  - destruct (Hv Hp) as [w Hw]. simpl in Hw. rewrite Hw.
    apply IH; [|assumption].
    intros k' v' Hin. apply (Hcall k' v'). now right.
  - apply IH; [|assumption].
    intros k' v' Hin. apply (Hcall k' v'). now right.
Qed.

Lemma forIn_throw data todo acc :
  (forall k v, In (k, v) todo -> callHasOwnProperty data k = Ok true) ->
  Exists (fun kv => plainObject (snd kv) = true /\
                    exists m, sanitizeFormData (snd kv) = Throw m) todo ->
  exists m, forIn data todo acc = Throw m.
Proof.
  revert acc. induction todo as [|[k v] todo IH]; intros acc Hcall Hex.
  - inversion Hex.
  - simpl. rewrite sanitizeEntry_step by (apply (Hcall k v); now left).
    inversion Hex as [? ? [Hp [m Hm]]|? ? Hlater]; subst.
    + simpl in Hp, Hm. rewrite Hp, Hm. now exists m.
    + assert (Hcall' : forall k' v', In (k', v') todo ->
                         callHasOwnProperty data k' = Ok true).
      { intros k' v' Hin. apply (Hcall k' v'). now right. }
      destruct (plainObject v).
      * destruct (sanitizeFormData v) as [w|m]; [|now exists m].
        now apply IH.
      * now apply IH.
Qed.

Lemma fold_store_distinct todo acc :
  distinct (map fst todo) = true ->
  (forall k, In k (map fst todo) -> hasOwn k acc = false) ->
  Forall (fun kv => stored (snd kv) = sanitizedValue (snd kv)) todo ->
  fold_left store todo acc = acc ++ sanitizedRecord todo.
Proof.
  revert acc. induction todo as [|[k v] todo IH]; intros acc Hd Hfresh Hst.
  - simpl. now rewrite app_nil_r.
  - simpl in Hd. apply andb_true_iff in Hd as [Hk Hd].
    apply negb_true_iff in Hk.
    inversion Hst as [|? ? Hv Hrest]; subst. simpl in Hv.
    simpl. unfold store at 2, setProp. simpl fst; simpl snd.
    destruct (JsString.eqb k k_proto).
    + apply IH; [assumption| |assumption].
      intros k' Hin. apply Hfresh. now right.
    + rewrite upsert_absent by (apply Hfresh; now left).
      rewrite IH; [|assumption| |assumption].
      * rewrite Hv, <- app_assoc. reflexivity.
      * intros k' Hin. rewrite hasOwn_app, hasOwn_cons.
        rewrite (Hfresh k') by now right. simpl.
        rewrite orb_false_r.
        destruct (JsString.eqb k k') eqn:E; [|reflexivity].
        rewrite <- Hk. symmetry. apply existsb_exists.
        exists k'. split; assumption.
Qed.

Lemma sanitizeFormData_entered v :
  entered v = true ->
  sanitizeFormData v
  = match forIn v (enumerate v) [] with
    | Ok sanitized => Ok (JObject sanitized)
    | Throw m => Throw (failedPrefix ++ m)
    end.
Proof.
  unfold entered.
  destruct v; simpl; rewrite ?andb_false_r; try discriminate; intros _.
  - reflexivity.
  - apply sanitizeFormData_array.
  - apply sanitizeFormData_object.
  - reflexivity.
Qed.

Lemma sanitizeFormData_rejected v :
  entered v = false -> sanitizeFormData v = Throw invalidData.
Proof.
  destruct v as [| |b|x|s|t|l|ps|ps]; try discriminate; try reflexivity.
  - destruct b; reflexivity.
  - destruct x; reflexivity.
  - destruct s; reflexivity.
Qed.

Lemma plainObject_entered v : plainObject v = true -> entered v = true.
Proof. destruct v; try discriminate; reflexivity. Qed.

Lemma existsb_indexed (f : value -> bool) i elems :
  existsb (fun kv => f (snd kv)) (indexed i elems) = existsb f elems.
Proof.
  revert i. induction elems as [|v elems IH]; intros i; [reflexivity|].
  simpl. now rewrite IH.
Qed.

Lemma forallb_indexed (f : value -> bool) i elems :
  forallb (fun kv => f (snd kv)) (indexed i elems) = forallb f elems.
Proof.
  revert i. induction elems as [|v elems IH]; intros i; [reflexivity|].
  simpl. now rewrite IH.
Qed.

Lemma Forall_indexed (P : value -> Prop) i elems :
  Forall P elems -> Forall (fun kv => P (snd kv)) (indexed i elems).
Proof.
  revert i. induction elems as [|v elems IH]; intros i H; simpl;
    [constructor|].
  inversion H; subst. constructor; [assumption|now apply IH].
Qed.

Lemma shadowed_enumerate v :
  callable v ->
  shadowed v
  = existsb (fun kv => plainObject (snd kv) && shadowed (snd kv)) (enumerate v).
Proof.
  unfold callable.
  destruct v; try reflexivity; simpl.
  - intros _. symmetry.
    apply (existsb_indexed (fun v => plainObject v && shadowed v)).
  - now intros ->.
  - discriminate.
Qed.

Lemma distinctKeys_enumerate v :
  distinctKeys v
  = distinct (map fst (enumerate v))
    && forallb (fun kv => negb (plainObject (snd kv)) || distinctKeys (snd kv))
         (enumerate v).
Proof.
  destruct v; try reflexivity. simpl. f_equal. symmetry.
  apply (forallb_indexed (fun v => negb (plainObject v) || distinctKeys v)).
Qed.

(** Without the method, the first property visited raises the TypeError;
    without properties nothing is visited. *)
Lemma sanitizes_withoutMethod v :
  withoutMethod v = true -> sanitizes v.
Proof.
  intros Hw Hent. rewrite (sanitizeFormData_entered _ Hent).
  destruct v as [| | | | | | |ps|ps]; try discriminate Hw; simpl in Hw.
  - destruct ps as [|[k w] ps]; [discriminate Hw|].
    assert (Hthrow : exists m, forIn (JObject ((k, w) :: ps))
                                 (enumerate (JObject ((k, w) :: ps))) []
                               = Throw m).
    { simpl. unfold sanitizeEntry, callHasOwnProperty. rewrite Hw. eauto. }
    destruct Hthrow as [m Hm]. rewrite Hm.
    split; [eauto|split].
    + simpl. rewrite Hw. discriminate.
    + simpl. rewrite Hw. discriminate.
  - destruct ps as [|[k w] ps].
    + simpl. split; [discriminate|split]; eauto.
    + simpl. split; [eauto|split]; discriminate.
Qed.

Lemma sanitizes_step v :
  Forall (fun kv => sanitizes (snd kv)) (enumerate v) -> sanitizes v.
Proof.
  intros IH.
  destruct (withoutMethod v) eqn:Hcall;
    [now apply sanitizes_withoutMethod|].
  intros Hent. rewrite (sanitizeFormData_entered _ Hent).
  assert (Hc : forall k w, In (k, w) (enumerate v) ->
                 callHasOwnProperty v k = Ok true).
  { intros k w. now apply callHasOwnProperty_enumerated. }
  rewrite (shadowed_enumerate _ Hcall).
  rewrite Forall_forall in IH.
  assert (Hclean : existsb (fun kv => plainObject (snd kv)
                                      && shadowed (snd kv)) (enumerate v)
                   = false ->
            forall k w, In (k, w) (enumerate v) -> plainObject w = true ->
            shadowed w = false).
  { intros Hno k w Hin Hp. destruct (shadowed w) eqn:E; [|reflexivity].
    rewrite <- Hno. symmetry. apply existsb_exists.
    exists (k, w). simpl. now rewrite Hp, E. }
  split; [|split].
  - intros Hex. apply existsb_exists in Hex as [[k w] [Hin Hw]].
    apply andb_true_iff in Hw as [Hp Hs]. simpl in Hp, Hs.
    destruct (forIn_throw v (enumerate v) []) as [m Hm]; [assumption| |].
    + apply Exists_exists. exists (k, w). split; [assumption|].
      split; [assumption|].
      destruct (IH (k, w) Hin (plainObject_entered _ Hp)) as (Ht & _ & _).
      now apply Ht.
    + rewrite Hm. eauto.
  - intros Hno. rewrite forIn_ok; [eauto|assumption|].
    apply Forall_forall. intros [k w] Hin Hp. simpl in *.
    destruct (IH (k, w) Hin (plainObject_entered _ Hp)) as (_ & Hok & _).
    apply Hok. now apply (Hclean Hno k w).
  - intros Hno Hd. rewrite distinctKeys_enumerate in Hd.
    apply andb_true_iff in Hd as [Hd Hnested].
    assert (Hsub : forall k w, In (k, w) (enumerate v) ->
              plainObject w = true ->
              sanitizeFormData w
              = Ok (JObject (sanitizedRecord (enumerate w)))).
    { intros k w Hin Hp.
      destruct (IH (k, w) Hin (plainObject_entered _ Hp)) as (_ & _ & Hr).
      apply Hr.
      - now apply (Hclean Hno k w).
      - rewrite forallb_forall in Hnested.
        specialize (Hnested (k, w) Hin). simpl in Hnested.
        now rewrite Hp in Hnested. }
    rewrite forIn_ok; [|assumption|].
    + rewrite fold_store_distinct; [reflexivity|assumption|reflexivity|].
      apply Forall_forall. intros [k w] Hin. simpl. unfold stored.
      destruct (plainObject w) eqn:Hp; [|reflexivity].
      rewrite (Hsub k w Hin Hp).
      destruct w; try discriminate; reflexivity.
    + apply Forall_forall. intros [k w] Hin Hp. simpl in *.
      rewrite (Hsub k w Hin Hp). eauto.
Qed.

Lemma sanitizes_all v : sanitizes v.
Proof.
  induction v using value_nested_ind;
    try (apply sanitizes_step; simpl; constructor).
  - apply sanitizes_step. simpl. now apply Forall_indexed.
  - apply sanitizes_step. simpl. assumption.
  - apply sanitizes_step. simpl. assumption.
Qed.





(** ** Comparisons of numbers *)

Lemma SFcompare_antisym a b :
  SFcompare b a = option_map CompOpp (SFcompare a b).
Proof.
  destruct a as [sa|sa| |sa ma ea], b as [sb|sb| |sb mb eb]; simpl;
    try reflexivity;
    try (destruct sa; reflexivity); try (destruct sb; reflexivity);
    try (destruct sa, sb; reflexivity).
  destruct sa, sb; try reflexivity; f_equal;
    rewrite (Z.compare_antisym ea eb);
    destruct (Z.compare ea eb) eqn:E; simpl; try reflexivity;
    change (Pos.compare_cont Eq mb ma) with (Pos.compare mb ma);
    change (Pos.compare_cont Eq ma mb) with (Pos.compare ma mb);
    rewrite (Pos.compare_antisym ma mb); try reflexivity;
    now rewrite ?CompOpp_involutive.
Qed.

Lemma SFcompare_None a b :
  SFcompare a b = None -> Num.isNaN a = true \/ Num.isNaN b = true.
Proof.
  destruct a as [sa|sa| |sa ma ea], b as [sb|sb| |sb mb eb]; simpl;
    auto; discriminate.
Qed.

Lemma Num_ge_le a b : Num.ge a b = Num.le b a.
Proof.
  unfold Num.ge, Num.le. rewrite (SFcompare_antisym a b).
  destruct (SFcompare a b) as [[| |]|]; reflexivity.
Qed.

Lemma Num_gt_lt a b : Num.gt a b = Num.lt b a.
Proof.
  unfold Num.gt, Num.lt. rewrite (SFcompare_antisym a b).
  destruct (SFcompare a b) as [[| |]|]; reflexivity.
Qed.

(** Two numbers that are not NaN are comparable. *)
Lemma Num_lt_false_le a b :
  Num.isNaN a = false -> Num.isNaN b = false ->
  Num.lt a b = false -> Num.le b a = true.
Proof.
  intros Ha Hb. rewrite <- Num_ge_le. unfold Num.lt, Num.ge.
  destruct (SFcompare a b) as [[| |]|] eqn:E; try reflexivity; try discriminate.
  apply SFcompare_None in E. destruct E; congruence.
Qed.

Lemma Num_le_not_lt a b : Num.le a b = true -> Num.lt b a = false.
Proof.
  rewrite <- Num_gt_lt. unfold Num.le, Num.gt.
  destruct (SFcompare a b) as [[| |]|]; try reflexivity; discriminate.
Qed.

Lemma Num_le_notNaN a b :
  Num.le a b = true -> Num.isNaN a = false /\ Num.isNaN b = false.
Proof.
  unfold Num.le.
  destruct a as [sa|sa| |sa ma ea], b as [sb|sb| |sb mb eb]; simpl;
    try discriminate; auto.
Qed.

(** The two bounds of the schema, as binary64 values. *)
Lemma MIN_ANNUAL_INCOME_eq :
  MIN_ANNUAL_INCOME = S754_finite false 4503599627370496 (-52).
Proof. vm_compute. reflexivity. Qed.

Lemma MAX_ANNUAL_INCOME_eq :
  MAX_ANNUAL_INCOME = S754_finite false 8388608000000000 (-23).
Proof. vm_compute. reflexivity. Qed.

(** A number that is at least 1 is positive. *)
Lemma Num_le_one_positive x :
  Num.le MIN_ANNUAL_INCOME x = true -> Num.le x Num.zero = false.
Proof.
  rewrite MIN_ANNUAL_INCOME_eq. unfold Num.le, Num.zero.
  destruct x as [s|s| |s m e]; try destruct s; cbn [SFcompare];
    try discriminate; reflexivity.
Qed.

Lemma Num_le_one_nonnegative x :
  Num.le MIN_ANNUAL_INCOME x = true -> Num.le Num.zero x = true.
Proof.
  rewrite MIN_ANNUAL_INCOME_eq. unfold Num.le, Num.zero.
  destruct x as [s|s| |s m e]; try destruct s; cbn [SFcompare];
    try discriminate; reflexivity.
Qed.

Lemma Num_lt_one_le_max x :
  Num.lt x MIN_ANNUAL_INCOME = true -> Num.le x MAX_ANNUAL_INCOME = true.
Proof.
  rewrite MIN_ANNUAL_INCOME_eq, MAX_ANNUAL_INCOME_eq. unfold Num.lt, Num.le.
  destruct x as [s|s| |s m e]; try destruct s; cbn [SFcompare];
    try discriminate; try reflexivity.
  destruct (Z.compare_spec e (-52)) as [->| |]; try discriminate.
  - intros _. reflexivity.
  - intros _. destruct (Z.compare_spec e (-23)); try reflexivity; lia.
Qed.

Lemma accepts_income_iff x :
  accepts annualGrossIncomeSchema (JNumber x) = true
  <-> Num.le MIN_ANNUAL_INCOME x = true /\ Num.le x MAX_ANNUAL_INCOME = true.
Proof.
  unfold accepts, Zod.safeParse, annualGrossIncomeSchema, Zod.number.
  destruct (Num.isNaN x) eqn:Hnan.
  - split; [discriminate|]. intros [H _].
    apply Num_le_notNaN in H. destruct H; congruence.
  - unfold Zod.positive, Zod.min, Zod.max. cbn [Zod.numberChecks].
    assert (Hmin : Num.isNaN MIN_ANNUAL_INCOME = false)
      by (rewrite MIN_ANNUAL_INCOME_eq; reflexivity).
    assert (Hmax : Num.isNaN MAX_ANNUAL_INCOME = false)
      by (rewrite MAX_ANNUAL_INCOME_eq; reflexivity).
    destruct (Num.le x Num.zero) eqn:E1;
      destruct (Num.lt x MIN_ANNUAL_INCOME) eqn:E2;
      destruct (Num.gt x MAX_ANNUAL_INCOME) eqn:E3; cbv beta iota;
      (split; [try discriminate; intros _|intros [H1 H2]; try reflexivity]).
    all: try (rewrite (Num_le_one_positive _ H1) in E1; discriminate).
    all: try (rewrite (Num_le_not_lt _ _ H1) in E2; discriminate).
    all: try (rewrite Num_gt_lt, (Num_le_not_lt _ _ H2) in E3; discriminate).
    split.
    + now apply Num_lt_false_le.
    + rewrite Num_gt_lt in E3. now apply Num_lt_false_le.
Qed.

(** C4. The form-level schema accepts an annual income exactly when it is a
    number with 1 <= income <= 1,000,000,000; [validateIncome] holds exactly
    when 0 <= income <= 1,000,000,000; the two differ exactly on the
    numbers with 0 <= income < 1. *)
Theorem income_bounds :
  (forall v, accepts annualGrossIncomeSchema v = true
             <-> exists x, v = JNumber x
                           /\ Num.le MIN_ANNUAL_INCOME x = true
                           /\ Num.le x MAX_ANNUAL_INCOME = true)
  /\ (forall x, validateIncome x = true
                <-> Num.le Num.zero x = true
                    /\ Num.le x MAX_ANNUAL_INCOME = true)
  /\ (forall x, validateIncome x <> accepts annualGrossIncomeSchema (JNumber x)
                <-> Num.le Num.zero x = true
                    /\ Num.lt x MIN_ANNUAL_INCOME = true)
  /\ MIN_ANNUAL_INCOME = Num.ofZ 1
  /\ MAX_ANNUAL_INCOME = Num.ofZ 1000000000.
Proof.
  assert (Hv : forall x, validateIncome x = true
                <-> Num.le Num.zero x = true
                    /\ Num.le x MAX_ANNUAL_INCOME = true).
  { intros x. unfold validateIncome. fold MAX_ANNUAL_INCOME.
    now rewrite andb_true_iff, Num_ge_le. }
  split; [|split; [exact Hv|split; [|split; reflexivity]]].
  - intros v. split.
    + intros H. destruct v; try discriminate.
      exists x. split; [reflexivity|]. now apply accepts_income_iff.
    + intros (x & -> & H). now apply accepts_income_iff.
  - intros x. split.
    + intros Hne.
      destruct (validateIncome x) eqn:V;
        destruct (accepts annualGrossIncomeSchema (JNumber x)) eqn:A;
        try (now elim Hne).
      * apply Hv in V as [V0 Vmax]. split; [assumption|].
        destruct (Num.lt x MIN_ANNUAL_INCOME) eqn:E; [reflexivity|].
        assert (H1 : Num.le MIN_ANNUAL_INCOME x = true).
        { apply Num_lt_false_le; [|reflexivity|assumption].
          now apply Num_le_notNaN in Vmax. }
        assert (accepts annualGrossIncomeSchema (JNumber x) = true)
          by now apply accepts_income_iff.
        congruence.
      * apply accepts_income_iff in A as [A1 A2].
        assert (validateIncome x = true).
        { apply Hv. split; [now apply Num_le_one_nonnegative|assumption]. }
        congruence.
    + intros [H0 H1].
      assert (V : validateIncome x = true).
      { apply Hv. split; [assumption|now apply Num_lt_one_le_max]. }
      rewrite V.
      destruct (accepts annualGrossIncomeSchema (JNumber x)) eqn:A;
        [|discriminate].
      apply accepts_income_iff in A as [A1 _].
      apply Num_le_not_lt in A1. congruence.
Qed.

Lemma income_bounds_witness :
  (Num.le Num.zero (Num.div (Num.ofZ 1) (Num.ofZ 2)) = true
   /\ Num.lt (Num.div (Num.ofZ 1) (Num.ofZ 2)) MIN_ANNUAL_INCOME = true)
  /\ validateIncome (Num.div (Num.ofZ 1) (Num.ofZ 2))
     <> accepts annualGrossIncomeSchema
          (JNumber (Num.div (Num.ofZ 1) (Num.ofZ 2))).
Proof.
  assert (H : Num.le Num.zero (Num.div (Num.ofZ 1) (Num.ofZ 2)) = true
              /\ Num.lt (Num.div (Num.ofZ 1) (Num.ofZ 2)) MIN_ANNUAL_INCOME
                 = true)
    by (split; reflexivity).
  split; [exact H|].
  exact (proj2 (proj1 (proj2 (proj2 income_bounds))
                  (Num.div (Num.ofZ 1) (Num.ofZ 2))) H).
Defined.

(** ** validateEmployerName and the employer name of the form *)

Lemma trimStart_whitespace s :
  forallb JsString.isWhiteSpace s = true -> JsString.trimStart s = [].
Proof.
  induction s as [|c s IH]; [reflexivity|].
  simpl. intros H. apply andb_true_iff in H as [Hc Hs].
  rewrite Hc. now apply IH.
Qed.

Lemma trim_whitespace s :
  forallb JsString.isWhiteSpace s = true -> JsString.trim s = [].
Proof.
  intros H. unfold JsString.trim. now rewrite (trimStart_whitespace _ H).
Qed.

Lemma employerNameClass_whitespace c :
  JsString.isWhiteSpace c = true -> employerNameClass c = true.
Proof.
  intros H. unfold employerNameClass. rewrite H.
  now rewrite !orb_true_r.
Qed.

(** C10, as the code has it.  [validateEmployerName] does not trim: every
    non-empty string of at most 100 code units that consists of white space
    only is valid for it.  The employer name of the form schema accepts the
    same strings: its length checks see the value as typed, the trim comes
    after them, and the parsed name is the empty string. *)
Theorem employerName_whitespace name :
  name <> [] -> (List.length name <= 100)%nat ->
  forallb JsString.isWhiteSpace name = true ->
  validateEmployerName name = true
  /\ employerNameSchema [k_employerName] (JString name)
     = ([], Zod.OK false []).
Proof.
  intros Hne Hlen Hws. split.
  - unfold validateEmployerName, testClassPlus.
    destruct name as [|c name]; [now elim Hne|].
    apply andb_true_iff. split; [|now apply Nat.leb_le].
    apply forallb_forall. intros x Hx.
    apply employerNameClass_whitespace.
    now apply (proj1 (forallb_forall _ _) Hws).
  - unfold employerNameSchema, Zod.string,
      MIN_EMPLOYER_NAME_LENGTH, MAX_EMPLOYER_NAME_LENGTH.
    cbn [Zod.stringChecks].
    assert (H1 : (List.length name <? 1)%nat = false).
    { apply Nat.ltb_ge. destruct name; [now elim Hne|simpl; lia]. }
    assert (H2 : (100 <? List.length name)%nat = false)
      by now apply Nat.ltb_ge.
    rewrite H1, H2, (trim_whitespace _ Hws). reflexivity.
Qed.

Lemma employerName_whitespace_witness :
  (u " " <> [] /\ (List.length (u " ") <= 100)%nat
   /\ forallb JsString.isWhiteSpace (u " ") = true)
  /\ validateEmployerName (u " ") = true
  /\ employerNameSchema [k_employerName] (JString (u " "))
     = ([], Zod.OK false []).
Proof.
  assert (H1 : u " " <> []) by discriminate.
  assert (H2 : (List.length (u " ") <= 100)%nat) by (simpl; lia).
  assert (H3 : forallb JsString.isWhiteSpace (u " ") = true) by reflexivity.
  split; [now repeat split|].
  exact (employerName_whitespace (u " ") H1 H2 H3).
Defined.

(** C10, the statement of the specification refuted: a single space passes
    the standalone validator and the form rule alike. *)
Lemma employerName_space_passes_form_rule :
  validateEmployerName (u " ") = true
  /\ accepts employerNameSchema (JString (u " ")) = true.
Proof. split; reflexivity. Qed.

(** ** The employment schema *)

Lemma stringChecks_other cs p data dirty issues :
  forallb (stringCheckOther p) cs = true ->
  forallb otherMessage issues = true ->
  forallb otherMessage (fst (Zod.stringChecks cs p data dirty issues)) = true.
Proof.
  revert data dirty issues.
  induction cs as [|c cs IH]; intros data dirty issues Hcs His;
    [assumption|].
  simpl in Hcs. apply andb_true_iff in Hcs as [Hc Hcs].
  assert (Hadd : forall m,
             otherMessage {| Zod.path := p; Zod.message := m |} = true ->
             forallb otherMessage
               (issues ++ [{| Zod.path := p; Zod.message := m |}]) = true).
  { intros m Hm. rewrite forallb_app, His. simpl. now rewrite Hm. }
  destruct c; simpl in *;
    repeat match goal with
           | |- context [if ?b then _ else _] => destruct b
           end; apply IH; auto.
Qed.

Lemma stringChecks_OK cs p data dirty issues :
  exists d out, snd (Zod.stringChecks cs p data dirty issues) = Zod.OK d out.
Proof.
  revert data dirty issues.
  induction cs as [|c cs IH]; intros data dirty issues; [simpl; eauto|].
  destruct c; simpl;
    repeat match goal with
           | |- context [if ?b then _ else _] => destruct b
           end; apply IH.
Qed.

Lemma numberChecks_other cs p data dirty issues :
  forallb (numberCheckOther p) cs = true ->
  forallb otherMessage issues = true ->
  forallb otherMessage (fst (Zod.numberChecks cs p data dirty issues)) = true.
Proof.
  revert dirty issues.
  induction cs as [|c cs IH]; intros dirty issues Hcs His; [assumption|].
  simpl in Hcs. apply andb_true_iff in Hcs as [Hc Hcs].
  assert (Hadd : forall m,
             otherMessage {| Zod.path := p; Zod.message := m |} = true ->
             forallb otherMessage
               (issues ++ [{| Zod.path := p; Zod.message := m |}]) = true).
  { intros m Hm. rewrite forallb_app, His. simpl. now rewrite Hm. }
  destruct c as [v [|] m|v [|] m]; simpl in *;
    repeat match goal with
           | |- context [if ?b then _ else _] => destruct b
           end; apply IH; auto.
Qed.

Lemma numberChecks_OK cs p data dirty issues :
  exists d out, snd (Zod.numberChecks cs p data dirty issues) = Zod.OK d out.
Proof.
  revert dirty issues.
  induction cs as [|c cs IH]; intros dirty issues; [simpl; eauto|].
  destruct c as [v [|] m|v [|] m]; simpl;
    repeat match goal with
           | |- context [if ?b then _ else _] => destruct b
           end; apply IH.
Qed.

Lemma employerName_other p v :
  forallb otherMessage (fst (employerNameSchema p v)) = true.
Proof.
  unfold employerNameSchema, Zod.string.
  destruct v; try reflexivity;
    try (destruct (Num.isNaN x) eqn:E; simpl; rewrite ?E; reflexivity).
  now apply stringChecks_other.
Qed.

Lemma currency_other p v :
  forallb otherMessage (fst (currencySchema p v)) = true.
Proof.
  unfold currencySchema, Zod.string.
  destruct v; try reflexivity;
    try (destruct (Num.isNaN x) eqn:E; simpl; rewrite ?E; reflexivity).
  now apply stringChecks_other.
Qed.

Lemma annualGrossIncome_other p v :
  forallb otherMessage (fst (annualGrossIncomeSchema p v)) = true.
Proof.
  unfold annualGrossIncomeSchema, Zod.number.
  destruct v; try reflexivity.
  destruct (Num.isNaN x); [reflexivity|].
  now apply numberChecks_other.
Qed.

Lemma notes_other p v :
  forallb otherMessage (fst (notesSchema p v)) = true.
Proof.
  unfold notesSchema, Zod.optional, Zod.string.
  destruct v; try reflexivity;
    try (destruct (Num.isNaN x) eqn:E; simpl; rewrite ?E; reflexivity).
  pose proof (stringChecks_other
                [Zod.SMax MAX_NOTES_LENGTH ERROR_MESSAGES.notes_tooLong]
                p s false [] eq_refl eq_refl) as H.
  destruct (Zod.stringChecks _ p s false []) as [issues [|d out]];
    exact H.
Qed.

Lemma otherMessage_not_endDate i :
  otherMessage i = true ->
  Zod.message i <> ERROR_MESSAGES.employmentEndDate_beforeStart.
Proof.
  unfold otherMessage. intros H Heq. rewrite Heq in H.
  rewrite (JsString_eqb_refl ERROR_MESSAGES.employmentEndDate_beforeStart) in H.
  now rewrite andb_false_r in H.
Qed.

Lemma fieldsTyped_OK ps :
  fieldsTyped ps = true ->
  (exists d v, snd (employerNameSchema [k_employerName]
                      (get k_employerName ps)) = Zod.OK d v)
  /\ (exists d v, snd (currencySchema [k_currency] (get k_currency ps))
                  = Zod.OK d v)
  /\ (exists d v, snd (annualGrossIncomeSchema [k_annualGrossIncome]
                         (get k_annualGrossIncome ps)) = Zod.OK d v)
  /\ (exists d v, snd (notesSchema [k_notes] (get k_notes ps)) = Zod.OK d v).
Proof.
  unfold fieldsTyped. rewrite !andb_true_iff. intros [[[H1 H2] H3] H4].
  repeat split.
  - destruct (get k_employerName ps); try discriminate.
    apply stringChecks_OK.
  - destruct (get k_currency ps); try discriminate. apply stringChecks_OK.
  - destruct (get k_annualGrossIncome ps); try discriminate.
    unfold annualGrossIncomeSchema, Zod.number. simpl in H3.
    apply negb_true_iff in H3. rewrite H3. apply numberChecks_OK.
  - destruct (get k_notes ps); try discriminate.
    + simpl. eauto.
    + unfold notesSchema, Zod.optional, Zod.string.
      destruct (stringChecks_OK
                  [Zod.SMax MAX_NOTES_LENGTH ERROR_MESSAGES.notes_tooLong]
                  [k_notes] s false []) as (d & out & H).
      destruct (Zod.stringChecks _ _ s false []) as [issues r].
      simpl in H. subst r. simpl. eauto.
Qed.

(** Conversely, a field whose parser is not aborted has its declared
    type. *)
Lemma OK_fieldsTyped ps :
  (exists d v, snd (employerNameSchema [k_employerName]
                      (get k_employerName ps)) = Zod.OK d v)
  -> (exists d v, snd (currencySchema [k_currency] (get k_currency ps))
                  = Zod.OK d v)
  -> (exists d v, snd (annualGrossIncomeSchema [k_annualGrossIncome]
                         (get k_annualGrossIncome ps)) = Zod.OK d v)
  -> (exists d v, snd (notesSchema [k_notes] (get k_notes ps)) = Zod.OK d v)
  -> fieldsTyped ps = true.
Proof.
  unfold fieldsTyped.
  intros (d1 & v1 & H1) (d2 & v2 & H2) (d3 & v3 & H3) (d6 & v6 & H6).
  rewrite !andb_true_iff. repeat split.
  - destruct (get k_employerName ps); try discriminate H1. reflexivity.
  - destruct (get k_currency ps); try discriminate H2. reflexivity.
  - destruct (get k_annualGrossIncome ps); try discriminate H3.
    unfold annualGrossIncomeSchema, Zod.number in H3. simpl.
    destruct (Num.isNaN x); [discriminate H3|reflexivity].
  - destruct (get k_notes ps); try discriminate H6; reflexivity.
Qed.

Lemma endDateIssue_not_other l :
  forallb otherMessage l = true -> ~ In endDateIssue l.
Proof.
  intros H Hin. rewrite forallb_forall in H. specialize (H _ Hin).
  vm_compute in H. discriminate H.
Qed.

Ltac in_issues := rewrite ?in_app_iff; simpl; tauto.

(** C7, as the code has it.  For every record: validation fails when the
    start date is strictly after the current moment, with the start-date
    issue at the start-date path; it fails when an end date is present that
    is on or before the start date, the end-date message is attached to no
    other path than [employmentEndDate], and it is attached there exactly
    when the cross-field rule is evaluated, that is, when the other four
    fields have their declared types; a record with a start date that is
    not in the future and an end date strictly after it gets neither of the
    two date issues, and it is valid when its other fields are. *)
Theorem employmentSchema_dates now ps :
  (forall ts,
      get k_employmentStartDate ps = JDate (Some ts) -> (now < ts)%Z ->
      exists issues,
        Zod.safeParse (employmentSchema now) (JObject ps) = Zod.failure issues
        /\ In futureIssue issues)
  /\ (forall ts te,
         get k_employmentStartDate ps = JDate (Some ts) ->
         get k_employmentEndDate ps = JDate (Some te) -> (te <= ts)%Z ->
         exists issues,
           Zod.safeParse (employmentSchema now) (JObject ps)
           = Zod.failure issues
           /\ (forall i, In i issues ->
                 Zod.message i = ERROR_MESSAGES.employmentEndDate_beforeStart ->
                 Zod.path i = [k_employmentEndDate])
           /\ (fieldsTyped ps = true -> In endDateIssue issues)
           /\ (In endDateIssue issues -> fieldsTyped ps = true))
  /\ (forall ts te,
         get k_employmentStartDate ps = JDate (Some ts) ->
         get k_employmentEndDate ps = JDate (Some te) ->
         (ts <= now)%Z -> (ts < te)%Z ->
         (forall issues i,
             Zod.safeParse (employmentSchema now) (JObject ps)
             = Zod.failure issues ->
             In i issues -> otherMessage i = true)
         /\ (fieldsAccepted ps = true ->
             exists data,
               Zod.safeParse (employmentSchema now) (JObject ps)
               = Zod.success data)).
Proof.
  pose proof (employerName_other [k_employerName] (get k_employerName ps))
    as O1.
  pose proof (currency_other [k_currency] (get k_currency ps)) as O2.
  pose proof (annualGrossIncome_other [k_annualGrossIncome]
                (get k_annualGrossIncome ps)) as O3.
  pose proof (notes_other [k_notes] (get k_notes ps)) as O6.
  split; [|split].
  - intros ts Hs Hlt.
    unfold Zod.safeParse, employmentSchema, Zod.refine, employmentObject.
    cbn [app]. rewrite Hs.
    unfold employmentStartDateSchema, Zod.refine, Zod.date.
    assert (E : (ts <=? now)%Z = false) by now apply Z.leb_gt.
    rewrite E.
    destruct (employerNameSchema _ _) as [i1 [|d1 v1]];
      destruct (currencySchema _ _) as [i2 [|d2 v2]];
      destruct (annualGrossIncomeSchema _ _) as [i3 [|d3 v3]];
      destruct (employmentEndDateSchema _ _) as [i5 [|d5 v5]];
      destruct (notesSchema _ _) as [i6 [|d6 v6]];
      try (eexists; split; [reflexivity|unfold futureIssue; in_issues]).
    destruct (endAfterStart _); rewrite ?orb_true_r; simpl;
      (eexists; split; [reflexivity|unfold futureIssue; in_issues]).
  - intros ts te Hs He Hle.
    pose proof (fieldsTyped_OK ps) as T.
    pose proof (OK_fieldsTyped ps) as T'.
    pose proof (endDateIssue_not_other
                  (fst (employerNameSchema [k_employerName]
                          (get k_employerName ps))) O1) as N1.
    pose proof (endDateIssue_not_other
                  (fst (currencySchema [k_currency] (get k_currency ps)))
                  O2) as N2.
    pose proof (endDateIssue_not_other
                  (fst (annualGrossIncomeSchema [k_annualGrossIncome]
                          (get k_annualGrossIncome ps))) O3) as N3.
    pose proof (endDateIssue_not_other
                  (fst (notesSchema [k_notes] (get k_notes ps))) O6) as N6.
    revert T T' N1 N2 N3 N6 O1 O2 O3 O6.
    unfold Zod.safeParse, employmentSchema, Zod.refine, employmentObject.
    cbn [app]. rewrite Hs, He.
    unfold employmentStartDateSchema, employmentEndDateSchema, Zod.refine,
      Zod.optional, Zod.date, endAfterStart.
    apply Z.leb_le in Hle.
    destruct (ts <=? now)%Z;
      destruct (employerNameSchema _ _) as [i1 [|d1 v1]];
      destruct (currencySchema _ _) as [i2 [|d2 v2]];
      destruct (annualGrossIncomeSchema _ _) as [i3 [|d3 v3]];
      destruct (notesSchema _ _) as [i6 [|d6 v6]];
      cbn [fst snd employmentEndDate employmentStartDate];
      rewrite ?Hle; intros T T' N1 N2 N3 N6 O1 O2 O3 O6;
      (eexists; split; [reflexivity|split; [|split]]).
    all: try (intros Ht;
              destruct (T Ht) as ((? & ? & ?) & (? & ? & ?) & (? & ? & ?)
                                  & (? & ? & ?)); discriminate).
    all: try (intros _; unfold endDateIssue; in_issues).
    all: try solve [intros _; apply T'; eauto].
    all: try solve [intros Hin; exfalso; rewrite ?in_app_iff in Hin;
                    simpl in Hin;
                    repeat match goal with
                           | H : _ \/ _ |- _ => destruct H
                           | H : False |- _ => destruct H
                           | H : In endDateIssue ?l, N : ~ In endDateIssue ?l
                             |- _ => exact (N H)
                           | H : _ = endDateIssue |- _ =>
                               vm_compute in H; discriminate H
                           end].
    all: intros i Hin Hm; rewrite ?in_app_iff in Hin; simpl in Hin;
      rewrite forallb_forall in O1, O2, O3, O6;
      repeat match goal with
             | H : _ \/ _ |- _ => destruct H
             | H : False |- _ => destruct H
             | H : In i ?l, O : forall x, In x ?l -> otherMessage x = true
               |- _ => elim (otherMessage_not_endDate i (O i H) Hm)
             | H : _ = i |- _ => subst i; try reflexivity; discriminate Hm
             end.
  - intros ts te Hs He Hnow Hlt.
    revert O1 O2 O3 O6.
    unfold fieldsAccepted, acceptsAt,
      Zod.safeParse, employmentSchema, Zod.refine, employmentObject.
    cbn [app]. rewrite Hs, He.
    unfold employmentStartDateSchema, employmentEndDateSchema, Zod.refine,
      Zod.optional, Zod.date, endAfterStart.
    apply Z.leb_le in Hnow. apply Z.leb_gt in Hlt. rewrite Hnow.
    destruct (employerNameSchema _ _) as [i1 [|d1 v1]];
      destruct (currencySchema _ _) as [i2 [|d2 v2]];
      destruct (annualGrossIncomeSchema _ _) as [i3 [|d3 v3]];
      destruct (notesSchema _ _) as [i6 [|d6 v6]];
      cbn [fst snd employmentEndDate employmentStartDate];
      rewrite ?Hlt; intros O1 O2 O3 O6; split.
    all: try (rewrite ?andb_false_r; simpl; discriminate).
    all: try (intros issues i Hf Hin;
              rewrite forallb_forall in O1, O2, O3, O6;
              repeat match type of Hf with
                     | context [if ?b then _ else _] => destruct b
                     end;
              try discriminate Hf; injection Hf as <-;
              rewrite ?in_app_iff in Hin; simpl in Hin;
              repeat match goal with
                     | H : _ \/ _ |- _ => destruct H
                     | H : False |- _ => destruct H
                     end; auto).
    destruct d1, d2, d3, d6; simpl; try discriminate. eauto.
Qed.

(** C7, the statement of the specification refuted: this record has an end
    date before its start date, and validation fails, but with the issue of
    the income only; no end-date error is attached to any path. *)
Lemma employmentSchema_end_date_unreported :
  get k_employmentStartDate
    (mistypedEmployment 1685577600000%Z 1672531200000%Z)
  = JDate (Some 1685577600000%Z)
  /\ get k_employmentEndDate
       (mistypedEmployment 1685577600000%Z 1672531200000%Z)
     = JDate (Some 1672531200000%Z)
  /\ (1672531200000 <= 1685577600000)%Z
  /\ Zod.safeParse (employmentSchema 1700000000000%Z)
       (JObject (mistypedEmployment 1685577600000%Z 1672531200000%Z))
     = Zod.failure
         [{| Zod.path := [k_annualGrossIncome];
             Zod.message := ERROR_MESSAGES.annualGrossIncome_invalid |}]
  /\ ~ In endDateIssue
         [{| Zod.path := [k_annualGrossIncome];
             Zod.message := ERROR_MESSAGES.annualGrossIncome_invalid |}].
Proof.
  split; [reflexivity|]. split; [reflexivity|]. split; [discriminate|].
  split; [reflexivity|].
  intros [H|[]]. discriminate H.
Qed.

Lemma employmentSchema_dates_witness :
  (* a start date after the current moment *)
  (exists issues,
      Zod.safeParse (employmentSchema 1672531200000%Z)
        (JObject (exampleEmployment 1685577600000%Z 1700000000000%Z))
      = Zod.failure issues
      /\ In futureIssue issues)
  (* an end date before the start date *)
  /\ (exists issues,
         Zod.safeParse (employmentSchema 1700000000000%Z)
           (JObject (exampleEmployment 1685577600000%Z 1672531200000%Z))
         = Zod.failure issues
         /\ In endDateIssue issues)
  (* a past start date and a later end date *)
  /\ (exists data,
         Zod.safeParse (employmentSchema 1700000000000%Z)
           (JObject (exampleEmployment 1672531200000%Z 1685577600000%Z))
         = Zod.success data).
Proof.
  split; [|split].
  - exact (proj1 (employmentSchema_dates 1672531200000%Z
                    (exampleEmployment 1685577600000%Z 1700000000000%Z))
             1685577600000%Z eq_refl eq_refl).
  - destruct (proj1 (proj2 (employmentSchema_dates 1700000000000%Z
                      (exampleEmployment 1685577600000%Z 1672531200000%Z)))
                1685577600000%Z 1672531200000%Z eq_refl eq_refl
                ltac:(discriminate))
      as (issues & Hf & _ & Hin & _).
    exists issues. split; [exact Hf|exact (Hin eq_refl)].
  - exact (proj2 (proj2 (proj2 (employmentSchema_dates 1700000000000%Z
                      (exampleEmployment 1672531200000%Z 1685577600000%Z)))
                    1672531200000%Z 1685577600000%Z eq_refl eq_refl
                    ltac:(discriminate) eq_refl)
             eq_refl).
Defined.

(** ** calculateTotalIncome *)

(** C2. [calculateTotalIncome] returns 0 whenever the start date is [null],
    or the income is a number with [income <= 0], or the end (the end date,
    or the current moment when the end date is [null]) is strictly before
    the start. *)
Theorem calculateTotalIncome_zero env income startDate endDate :
  (startDate = None
   \/ (exists x, income = JNumber x /\ Num.le x Num.zero = true)
   \/ (exists ts te, startDate = Some (Some ts)
                     /\ endMoment env endDate = Some te /\ (te < ts)%Z)) ->
  calculateTotalIncome env income startDate endDate = Num.zero.
Proof.
  unfold calculateTotalIncome, calculateTotalIncomeTry.
  intros [->|[(x & -> & Hle)|(ts & te & -> & He & Hlt)]].
  - destruct income; try reflexivity. destruct (Num.isNaN x); reflexivity.
  - destruct (Num.isNaN x); [reflexivity|].
    destruct startDate; [|reflexivity].
    rewrite Hle, orb_true_r. reflexivity.
  - destruct income; try reflexivity.
    destruct (Num.isNaN x); [reflexivity|].
    destruct (negb (Num.truthy x) || Num.le x Num.zero); [reflexivity|].
    apply Z.ltb_lt in Hlt.
    destruct endDate as [[t|]|]; simpl in He; try discriminate;
      injection He as ->; simpl; rewrite Hlt; reflexivity.
Qed.

Lemma calculateTotalIncome_zero_witness :
  (exists ts te, Some (Some 1704067200000%Z) = Some (Some ts)
                 /\ endMoment {| now := 0; zone := JsDate.fixed 0 |}
                      (Some (Some 1672531200000%Z)) = Some te
                 /\ (te < ts)%Z)
  /\ calculateTotalIncome {| now := 0; zone := JsDate.fixed 0 |}
       (JNumber (Num.ofZ 50000))
       (Some (Some 1704067200000%Z)) (Some (Some 1672531200000%Z))
     = Num.zero.
Proof.
  assert (H : exists ts te, Some (Some 1704067200000%Z) = Some (Some ts)
                 /\ endMoment {| now := 0; zone := JsDate.fixed 0 |}
                      (Some (Some 1672531200000%Z)) = Some te
                 /\ (te < ts)%Z).
  { exists 1704067200000%Z, 1672531200000%Z. repeat split. }
  split; [exact H|].
  exact (calculateTotalIncome_zero {| now := 0; zone := JsDate.fixed 0 |}
           (JNumber (Num.ofZ 50000))
           (Some (Some 1704067200000%Z)) (Some (Some 1672531200000%Z))
           (or_intror (or_intror H))).
Defined.

Lemma precision_eq :
  Currency.precision = S754_finite false 7036874417766400 (-46).
Proof. vm_compute. reflexivity. Qed.

(** Once the integer value is infinite or NaN, so is the value of every
    product. *)
Lemma currency_infinity_multiply y :
  Currency.value (Currency.multiply (Currency.currency Num.Infinity) y)
  <> Num.zero.
Proof.
  destruct y as [s|s| |s m e]; try destruct s; vm_compute; discriminate.
Qed.

(** C3, as the code has it.  An income that is NaN is rejected as invalid
    and the result is 0; an income of -Infinity gives 0 as every income
    [<= 0] does; every exception raised in the computation, including the
    one for an income that is not a number, is caught and the result is 0.
    An income of +Infinity is not rejected: with a valid start date and an
    end date that is not before it, the result is not 0. *)
Theorem calculateTotalIncome_invalid_income :
  (forall env s e, calculateTotalIncome env (JNumber Num.NaN) s e = Num.zero)
  /\ (forall env s e,
         calculateTotalIncome env (JNumber Num.NegInfinity) s e = Num.zero)
  /\ (forall env income s e m,
         calculateTotalIncomeTry env income s e = Throw m ->
         calculateTotalIncome env income s e = Num.zero)
  /\ (forall env income s e,
         typeof income <> TNumber ->
         calculateTotalIncome env income s e = Num.zero)
  /\ (forall env ts te,
         (ts <= te)%Z ->
         calculateTotalIncome env (JNumber Num.Infinity)
           (Some (Some ts)) (Some (Some te)) <> Num.zero).
Proof.
  split; [|split; [|split; [|split]]].
  - intros env s e. reflexivity.
  - intros env [s|] e; reflexivity.
  - intros env income s e m H. unfold calculateTotalIncome. now rewrite H.
  - intros env income s e H. destruct income; try reflexivity. now elim H.
  - intros env ts te Hle.
    unfold calculateTotalIncome, calculateTotalIncomeTry.
    change (Num.isNaN Num.Infinity) with false.
    change (negb (Num.truthy Num.Infinity) || Num.le Num.Infinity Num.zero)
      with false.
    cbn [Dayjs.isValid negb andb Dayjs.isBefore].
    apply Z.ltb_ge in Hle. rewrite Hle.
    apply currency_infinity_multiply.
Qed.

Lemma calculateTotalIncome_invalid_income_witness :
  ((t2023 <= t2024)%Z
   /\ calculateTotalIncome {| now := 0; zone := JsDate.fixed 0 |}
        (JNumber Num.Infinity) (Some (Some t2023)) (Some (Some t2024))
      <> Num.zero)
  /\ (typeof (JString (u "50000")) <> TNumber
      /\ calculateTotalIncome {| now := 0; zone := JsDate.fixed 0 |}
           (JString (u "50000")) (Some (Some t2023)) (Some (Some t2024))
         = Num.zero).
Proof.
  assert (H1 : (t2023 <= t2024)%Z) by discriminate.
  assert (H2 : typeof (JString (u "50000")) <> TNumber) by discriminate.
  split; split; [exact H1| |exact H2|].
  - exact (proj2 (proj2 (proj2 (proj2 calculateTotalIncome_invalid_income)))
             {| now := 0; zone := JsDate.fixed 0 |} t2023 t2024 H1).
  - exact (proj1 (proj2 (proj2 (proj2 calculateTotalIncome_invalid_income)))
             {| now := 0; zone := JsDate.fixed 0 |} (JString (u "50000"))
             (Some (Some t2023)) (Some (Some t2024)) H2).
Defined.

(** C3, the statement of the specification refuted: an income of +Infinity
    over the year 2023 gives +Infinity, not 0. *)
Lemma calculateTotalIncome_infinity_not_zero :
  calculateTotalIncome {| now := 0; zone := JsDate.fixed 0 |}
    (JNumber Num.Infinity) (Some (Some t2023)) (Some (Some t2024))
  = Num.Infinity
  /\ Num.Infinity <> Num.zero.
Proof. split; [vm_compute; reflexivity|discriminate]. Qed.

Lemma sameNumber_eq a b : sameNumber a b = true -> a = b.
Proof.
  destruct a as [s|s| |s m e], b as [s'|s'| |s' m' e']; simpl;
    try discriminate; try reflexivity.
  - intros H. apply Bool.eqb_prop in H. now subst.
  - intros H. apply Bool.eqb_prop in H. now subst.
  - rewrite !andb_true_iff. intros [[Hs Hm] He].
    apply Bool.eqb_prop in Hs. apply Pos.eqb_eq in Hm. apply Z.eqb_eq in He.
    now subst.
Qed.

Lemma quarters_In lo len k :
  (lo <= k < lo + Z.of_nat len)%Z -> In (15 * k)%Z (quarters lo len).
Proof.
  intros H. unfold quarters. apply in_map_iff.
  exists (Z.to_nat (k - lo)). split; [f_equal; lia|].
  apply in_seq. lia.
Qed.

Lemma oneYearCheck_all :
  forallb oneYearCheck (quarters (-48) 105) = true.
Proof. vm_compute. reflexivity. Qed.

(** With an end date, the current time is not read. *)
Lemma calculateTotalIncome_now env n income startDate endTime :
  calculateTotalIncome env income startDate (Some endTime)
  = calculateTotalIncome {| now := n; zone := zone env |}
      income startDate (Some endTime).
Proof. destruct env as [n0 z]. reflexivity. Qed.

(** C8.  The year difference is taken in local time, so the result depends
    on the zone of the host: in America/Nuuk, three hours west of UTC on
    2023-01-01 and two hours west on 2024-01-01, the end of the span moved
    back twelve months falls one hour after its start, the span counts as a
    little more than a year, and [calculateTotalIncome] of 50000 from
    2023-01-01 to 2024-01-01 is 50005.6 and not the 50000 that the
    specification and the test of the function state. *)
Lemma calculateTotalIncome_one_year_zone_change :
  calculateTotalIncome {| now := 0; zone := nuuk |}
    (JNumber (Num.ofZ 50000)) (Some (Some t2023)) (Some (Some t2024))
  = n50005_6
  /\ n50005_6 <> Num.ofZ 50000
  /\ (JsDate.offsetAt nuuk t2023 = (-180) * JsDate.msPerMinute)%Z
  /\ (JsDate.offsetAt nuuk t2024 = (-120) * JsDate.msPerMinute)%Z
  /\ Dayjs.addMonths nuuk t2024 (-12) = Some (t2023 + 3600000)%Z.
Proof.
  split; [vm_compute; reflexivity|].
  split; [vm_compute; discriminate|].
  repeat split; reflexivity.
Qed.

(** ** The debounced recomputation *)

Section Debounce.

Variable z : JsDate.zone.

Notation step := (EmploymentForm.step z).
Notation run := (EmploymentForm.run z).

Lemma run_app st evs evs' : run st (evs ++ evs') = run (run st evs) evs'.
Proof. unfold EmploymentForm.run. apply fold_left_app. Qed.

(** During a burst nothing is recomputed: the timer is always the one of
    the latest change and has not run out. *)
Lemma burst_pending latest a calls shown evs :
  burst latest evs ->
  forall fields,
    a = EmploymentForm.effectArgs fields ->
    run {| EmploymentForm.timer := Some (latest + EmploymentForm.delay)%Z;
           EmploymentForm.lastArgs := Some a;
           EmploymentForm.recomputations := calls;
           EmploymentForm.totalIncome := shown |} evs
    = {| EmploymentForm.timer :=
           Some (fst (latestChange latest fields evs)
                 + EmploymentForm.delay)%Z;
         EmploymentForm.lastArgs :=
           Some (EmploymentForm.effectArgs
                   (snd (latestChange latest fields evs)));
         EmploymentForm.recomputations := calls;
         EmploymentForm.totalIncome := shown |}.
Proof.
  revert latest a.
  induction evs as [|[time fields'|time] evs IH];
    intros latest a Hb fields ->.
  - reflexivity.
  - destruct Hb as [_ Hb]. simpl.
    now apply (IH time _ Hb fields').
  - destruct Hb as [Ht Hb]. simpl.
    assert (E : (latest + EmploymentForm.delay <=? time)%Z = false)
      by (apply Z.leb_gt; lia).
    rewrite E. now apply (IH latest _ Hb fields).
Qed.

Lemma recomputations_step st ev :
  (List.length (EmploymentForm.recomputations (step st ev))
   + pendingTimers (step st ev)
   <= List.length (EmploymentForm.recomputations st) + pendingTimers st
      + changes [ev])%nat.
Proof.
  unfold pendingTimers, changes.
  destruct ev as [time fields|time]; simpl.
  - destruct (EmploymentForm.timer st); lia.
  - destruct (EmploymentForm.timer st) as [deadline|] eqn:Et;
      [|rewrite Et; lia].
    destruct (EmploymentForm.lastArgs st) as [a|]; [|rewrite Et; lia].
    destruct (deadline <=? time)%Z; simpl.
    + rewrite length_app. simpl. lia.
    + rewrite Et. lia.
Qed.

Lemma recomputations_run st evs :
  (List.length (EmploymentForm.recomputations (run st evs))
   + pendingTimers (run st evs)
   <= List.length (EmploymentForm.recomputations st) + pendingTimers st
      + changes evs)%nat.
Proof.
  revert st. induction evs as [|ev evs IH]; intros st; [simpl; lia|].
  change (run st (ev :: evs)) with (run (step st ev) evs).
  specialize (IH (step st ev)).
  pose proof (recomputations_step st ev) as Hs.
  assert (Hc : changes (ev :: evs) = (changes [ev] + changes evs)%nat).
  { unfold changes. simpl. destruct ev; simpl; lia. }
  lia.
Qed.

(** C9. Each change restarts the 500 ms timer of the debounced
    computation.  A burst of changes, each less than 500 ms after the one
    before it, followed by the timer task 500 ms or more after the last
    of them, adds exactly one recomputation, with the values of the last
    change, however the timer task was scheduled in between; and in any
    run there are at most as many recomputations as changes. *)
Theorem debounce_burst :
  (forall st time fields,
      EmploymentForm.timer
        (step st (EmploymentForm.Change time fields))
      = Some (time + 500)%Z)
  /\ (forall st time fields evs finish,
         burst time evs ->
         (fst (latestChange time fields evs) + 500 <= finish)%Z ->
         EmploymentForm.recomputations
           (run st (EmploymentForm.Change time fields :: evs
                    ++ [EmploymentForm.TimerTask finish]))
         = EmploymentForm.recomputations st
           ++ [EmploymentForm.effectArgs
                 (snd (latestChange time fields evs))])
  /\ (forall evs,
         (List.length
            (EmploymentForm.recomputations (run EmploymentForm.initial evs))
          <= changes evs)%nat).
Proof.
  split; [reflexivity|split].
  - intros st time fields evs finish Hb Hfin.
    change (run st (EmploymentForm.Change time fields
                    :: evs ++ [EmploymentForm.TimerTask finish]))
      with (run (step st (EmploymentForm.Change time fields))
              (evs ++ [EmploymentForm.TimerTask finish])).
    rewrite run_app. cbn [EmploymentForm.step].
    rewrite (burst_pending time _ _ _ evs Hb fields eq_refl).
    cbn [EmploymentForm.run fold_left EmploymentForm.step
         EmploymentForm.timer EmploymentForm.lastArgs].
    apply Z.leb_le in Hfin. unfold EmploymentForm.delay. rewrite Hfin.
    reflexivity.
  - intros evs.
    pose proof (recomputations_run EmploymentForm.initial evs) as H.
    unfold pendingTimers at 2 in H. simpl in H. lia.
Qed.

End Debounce.

Lemma debounce_burst_witness :
  (burst 1000 (tl (tenEdits 980))
   /\ (fst (latestChange 1000
              {| EmploymentForm.selectedCurrency := Some (u "EUR");
                 EmploymentForm.annualIncome := Some (Num.ofZ 1);
                 EmploymentForm.startDate := Some (Some t2023);
                 EmploymentForm.endDate := Some (Some t2024) |}
              (tl (tenEdits 980))) + 500 <= 1680)%Z)
  /\ EmploymentForm.recomputations
       (EmploymentForm.run (JsDate.fixed 0) EmploymentForm.initial
          (tenEdits 980 ++ [EmploymentForm.TimerTask 1680]))
     = [ {| EmploymentForm.currencyCode := u "EUR";
            EmploymentForm.income := Num.ofZ 10;
            EmploymentForm.start := Some (Some t2023);
            EmploymentForm.end_ := Some (Some t2024) |} ].
Proof.
  assert (H1 : burst 1000 (tl (tenEdits 980))).
  { simpl. unfold EmploymentForm.delay. repeat split; lia. }
  assert (H2 : (fst (latestChange 1000
              {| EmploymentForm.selectedCurrency := Some (u "EUR");
                 EmploymentForm.annualIncome := Some (Num.ofZ 1);
                 EmploymentForm.startDate := Some (Some t2023);
                 EmploymentForm.endDate := Some (Some t2024) |}
              (tl (tenEdits 980))) + 500 <= 1680)%Z).
  { simpl. lia. }
  split; [split; [exact H1|exact H2]|].
  exact (proj1 (proj2 (debounce_burst (JsDate.fixed 0))) EmploymentForm.initial 1000%Z
           {| EmploymentForm.selectedCurrency := Some (u "EUR");
              EmploymentForm.annualIncome := Some (Num.ofZ 1);
              EmploymentForm.startDate := Some (Some t2023);
              EmploymentForm.endDate := Some (Some t2024) |}
           (tl (tenEdits 980)) 1680%Z H1 H2).
Defined.

(* ================================================================= *)
(** * Part IV: further properties of the code *)
(* ================================================================= *)

(** ** sanitizeString *)

Lemma entity_cases c :
  (special c = true
   /\ (c = c_amp \/ c = c_lt \/ c = c_gt \/ c = c_quot \/ c = c_apos
       \/ c = c_slash))
  \/ (special c = false /\ entity c = [c] /\ c <> c_amp).
Proof.
  unfold special, entity. simpl.
  destruct (N.eqb_spec c c_amp) as [->|Hamp]; [left; split; auto|].
  destruct (N.eqb_spec c c_lt) as [->|Hlt]; [left; split; auto|].
  destruct (N.eqb_spec c c_gt) as [->|Hgt]; [left; split; auto|].
  destruct (N.eqb_spec c c_quot) as [->|Hquot]; [left; split; auto 6|].
  destruct (N.eqb_spec c c_apos) as [->|Hapos]; [left; split; auto 7|].
  destruct (N.eqb_spec c c_slash) as [->|Hslash]; [left; split; auto 8|].
  right. auto.
Qed.

Lemma flat_map_entity_inj s :
  forall t, flat_map entity s = flat_map entity t -> s = t.
Proof.
  induction s as [|c s IH]; intros [|d t] H.
  - reflexivity.
  - exfalso. simpl in H.
    destruct (entity_cases d) as [[_ Hd]|(_ & Hd & _)].
    + destruct Hd as [->|[->|[->|[->|[->| ->]]]]]; discriminate H.
    + rewrite Hd in H. discriminate H.
  - exfalso. simpl in H.
    destruct (entity_cases c) as [[_ Hc]|(_ & Hc & _)].
    + destruct Hc as [->|[->|[->|[->|[->| ->]]]]]; discriminate H.
    + rewrite Hc in H. discriminate H.
  - simpl in H.
    destruct (entity_cases c) as [[_ Hc]|(_ & Hc & Hc')];
      destruct (entity_cases d) as [[_ Hd]|(_ & Hd & Hd')].
    + destruct Hc as [->|[->|[->|[->|[->| ->]]]]];
        destruct Hd as [->|[->|[->|[->|[->| ->]]]]];
        try discriminate H;
        (injection H as H; f_equal; now apply IH).
    + rewrite Hd in H.
      destruct Hc as [->|[->|[->|[->|[->| ->]]]]];
        injection H as H0 H; now elim Hd'.
    + rewrite Hc in H.
      destruct Hd as [->|[->|[->|[->|[->| ->]]]]];
        injection H as H0 H; now elim Hc'.
    + rewrite Hc, Hd in H. injection H as -> H. f_equal. now apply IH.
Qed.

(** X1. Escaping loses no information: two different strings never have the
    same sanitised form. *)
Theorem sanitizeString_injective s t :
  sanitizeString (JString s) = sanitizeString (JString t) -> s = t.
Proof.
  rewrite !sanitizeString_flat_map. apply flat_map_entity_inj.
Qed.

Lemma sanitizeString_injective_witness :
  sanitizeString (JString (u "a&b")) = sanitizeString (JString (u "a&b"))
  /\ u "a&b" = u "a&b".
Proof.
  split; [reflexivity|].
  exact (sanitizeString_injective (u "a&b") (u "a&b") eq_refl).
Defined.

(** X2. The sanitised form of a string contains none of the characters
    < > double-quote ' and /. *)
Theorem sanitizeString_safe s c :
  In c (sanitizeString (JString s)) -> markup c = false.
Proof.
  rewrite sanitizeString_flat_map. intros H.
  apply in_flat_map in H as (x & _ & Hx).
  destruct (entity_cases x) as [[_ Hs]|(Hs & He & _)].
  - destruct Hs as [->|[->|[->|[->|[->| ->]]]]]; simpl in Hx;
      repeat (destruct Hx as [<-|Hx]; [reflexivity|]); destruct Hx.
  - rewrite He in Hx. destruct Hx as [<-|[]].
    unfold special in Hs. simpl in Hs. unfold markup. simpl.
    destruct (N.eqb x c_amp); [discriminate|exact Hs].
Qed.

Lemma sanitizeString_safe_witness :
  In 108%N (sanitizeString (JString (u "<script>")))
  /\ markup 108 = false.
Proof.
  assert (H : In 108%N (sanitizeString (JString (u "<script>"))))
    by (simpl; tauto).
  split; [exact H|].
  exact (sanitizeString_safe (u "<script>") 108%N H).
Defined.

Lemma entity_length c :
  (1 <= List.length (entity c) <= 6)%nat
  /\ (special c = true -> 4 <= List.length (entity c))%nat.
Proof.
  destruct (entity_cases c) as [[Hs Hc]|(Hs & He & _)].
  - destruct Hc as [->|[->|[->|[->|[->| ->]]]]]; simpl; lia.
  - rewrite He, Hs. simpl. split; [lia|discriminate].
Qed.

(** X3. The sanitised form of a string is never shorter than the string and
    at most six times as long; it is the string itself exactly when the
    string contains none of the six escaped characters. *)
Theorem sanitizeString_length_fixpoint s :
  (List.length s <= List.length (sanitizeString (JString s))
   <= 6 * List.length s)%nat
  /\ (sanitizeString (JString s) = s <-> existsb special s = false).
Proof.
  rewrite sanitizeString_flat_map.
  assert (Hlen : (List.length s <= List.length (flat_map entity s)
                  <= 6 * List.length s)%nat
                 /\ (existsb special s = true ->
                     List.length s < List.length (flat_map entity s))%nat).
  { induction s as [|c s [IH1 IH2]]; simpl; [split; [lia|discriminate]|].
    rewrite length_app. destruct (entity_length c) as [Hc Hc'].
    split; [lia|].
    intros H. apply orb_true_iff in H as [H|H].
    - specialize (Hc' H). lia.
    - specialize (IH2 H). lia. }
  split; [exact (proj1 Hlen)|]. split.
  - intros Heq. destruct (existsb special s) eqn:E; [|reflexivity].
    pose proof (proj2 Hlen eq_refl) as Hlt. rewrite Heq in Hlt. lia.
  - clear Hlen. induction s as [|c s IH]; [reflexivity|].
    simpl. intros H. apply orb_false_iff in H as [Hc Hs].
    destruct (entity_cases c) as [[Hc' _]|(_ & He & _)]; [congruence|].
    rewrite He, (IH Hs). reflexivity.
Qed.

(** X4. Sanitising is compositional: the sanitised form of a concatenation
    is the concatenation of the sanitised forms, so a string may be escaped
    piece by piece. *)
Theorem sanitizeString_concat a b :
  sanitizeString (JString (a ++ b))
  = sanitizeString (JString a) ++ sanitizeString (JString b).
Proof.
  rewrite !sanitizeString_flat_map. apply flat_map_app.
Qed.

(** ** validateEmployerName and validateIncome *)

(** X5. [validateEmployerName] rejects the empty string, every string of
    more than 100 code units and every string with a character outside the
    class of the pattern, among them < > double-quote and /; so in a valid
    name [sanitizeString] has only ampersands and apostrophes to escape. *)
Theorem validateEmployerName_rejects name :
  validateEmployerName name = true ->
  name <> []
  /\ (List.length name <= 100)%nat
  /\ (forall c, In c name ->
        employerNameClass c = true
        /\ c <> c_lt /\ c <> c_gt /\ c <> c_quot /\ c <> c_slash).
Proof.
  unfold validateEmployerName, testClassPlus. intros H.
  apply andb_true_iff in H as [Hcls Hlen].
  destruct name as [|x name]; [discriminate|].
  split; [discriminate|]. split; [now apply Nat.leb_le|].
  intros c Hc. rewrite forallb_forall in Hcls. specialize (Hcls c Hc).
  split; [exact Hcls|].
  repeat split; intros ->; discriminate Hcls.
Qed.

Lemma validateEmployerName_rejects_witness :
  validateEmployerName (u "O'Neill & Sons, Inc.") = true
  /\ (List.length (u "O'Neill & Sons, Inc.") <= 100)%nat.
Proof.
  split; [reflexivity|].
  exact (proj1 (proj2 (validateEmployerName_rejects
                         (u "O'Neill & Sons, Inc.") eq_refl))).
Defined.

(** X6. [validateIncome] rejects NaN, both infinities and every negative
    number; zero of either sign is accepted. *)
Theorem validateIncome_rejects x :
  (validateIncome x = true ->
   Num.isNaN x = false /\ x <> Num.Infinity /\ x <> Num.NegInfinity
   /\ Num.lt x Num.zero = false)
  /\ validateIncome (S754_zero false) = true
  /\ validateIncome (S754_zero true) = true.
Proof.
  split; [|split; vm_compute; reflexivity].
  unfold validateIncome. intros H. apply andb_true_iff in H as [H0 Hmax].
  rewrite Num_ge_le in H0.
  split; [now apply Num_le_notNaN in Hmax|].
  split; [intros ->; vm_compute in Hmax; discriminate Hmax|].
  split; [intros ->; discriminate H0|].
  now apply Num_le_not_lt.
Qed.

Lemma validateIncome_rejects_witness :
  validateIncome (Num.ofZ 50000) = true
  /\ Num.lt (Num.ofZ 50000) Num.zero = false.
Proof.
  split; [reflexivity|].
  exact (proj2 (proj2 (proj2 (proj1 (validateIncome_rejects (Num.ofZ 50000))
                                eq_refl)))).
Defined.

Lemma sanitizeString_length_fixpoint_witness :
  existsb special (u "Acme Corp") = false
  /\ sanitizeString (JString (u "Acme Corp")) = u "Acme Corp".
Proof.
  split; [reflexivity|].
  exact (proj2 (proj2 (sanitizeString_length_fixpoint (u "Acme Corp")))
           eq_refl).
Defined.

(** ** sanitizeFormData *)

Lemma sanitizeString_no_markup s :
  existsb markup (sanitizeString (JString s)) = false.
Proof.
  destruct (existsb markup (sanitizeString (JString s))) eqn:E;
    [|reflexivity].
  apply existsb_exists in E as (c & Hin & Hc).
  rewrite sanitizeString_flat_map in Hin.
  apply in_flat_map in Hin as (x & _ & Hx).
  destruct (entity_cases x) as [[_ Hs]|(Hs & He & _)].
  - destruct Hs as [->|[->|[->|[->|[->| ->]]]]]; simpl in Hx;
      repeat (destruct Hx as [<-|Hx]; [discriminate Hc|]); destruct Hx.
  - rewrite He in Hx. destruct Hx as [->|[]].
    unfold special in Hs. simpl in Hs. unfold markup in Hc. simpl in Hc.
    apply orb_false_iff in Hs as [_ Hs]. congruence.
Qed.

Lemma escaped_sanitizedRecord ps :
  Forall (fun kv => escaped (sanitizedValue (snd kv)) = true) ps ->
  forallb (fun kv => escaped (snd kv)) (sanitizedRecord ps) = true.
Proof.
  induction ps as [|[k v] ps IH]; intros H; [reflexivity|].
  inversion H as [|? ? Hv Hps]; subst. simpl.
  destruct (JsString.eqb k k_proto); [now apply IH|].
  simpl. simpl in Hv. rewrite Hv. now apply IH.
Qed.

Lemma escaped_sanitizedValue v : escaped (sanitizedValue v) = true.
Proof.
  induction v using value_nested_ind; try reflexivity.
  - change (negb (existsb markup (sanitizeString (JString s))) = true).
    now rewrite sanitizeString_no_markup.
  - rewrite sanitizedValue_object. simpl.
    now apply escaped_sanitizedRecord.
  - change (sanitizedValue (JBare ps)) with (JObject (sanitizedRecord ps)).
    simpl. now apply escaped_sanitizedRecord.
Qed.

(** X7. Whatever [sanitizeFormData] returns is escaped throughout, arrays
    apart: no string of the result, at the top or in a nested plain object,
    contains one of < > double-quote ' and /. *)
Theorem sanitizeFormData_escaped data w :
  distinctKeys data = true ->
  sanitizeFormData data = Ok w ->
  escaped w = true.
Proof.
  intros Hd Hok.
  destruct (entered data) eqn:Hent;
    [|rewrite (sanitizeFormData_rejected _ Hent) in Hok; discriminate].
  destruct (sanitizes_all data Hent) as (Ht & _ & Hr).
  destruct (shadowed data) eqn:Hs.
  - destruct (Ht eq_refl) as [m Hm]. congruence.
  - rewrite (Hr eq_refl Hd) in Hok. injection Hok as <-.
    simpl. apply escaped_sanitizedRecord.
    apply Forall_forall. intros kv _. apply escaped_sanitizedValue.
Qed.

Lemma sanitizeFormData_escaped_witness :
  distinctKeys exampleData = true
  /\ (exists w, sanitizeFormData exampleData = Ok w /\ escaped w = true).
Proof.
  split; [reflexivity|].
  eexists. split; [reflexivity|].
  exact (sanitizeFormData_escaped exampleData _ eq_refl eq_refl).
Defined.

(** X8. The submit path: the object of parsed form data is always
    sanitised without an exception, and the result is the same object with
    the employer name, the currency and the notes escaped and the income
    and the dates untouched. *)
Theorem sanitizeFormData_formData data :
  sanitizeFormData (formDataObject data)
  = Ok (formDataObject (escapedFormData data)).
Proof.
  destruct data as [n c x s [e|] [t|]]; reflexivity.
Qed.

(** ** The employment schema, field by field *)

Lemma employerName_field p v out :
  snd (employerNameSchema p v) = Zod.OK false out
  <-> exists s, v = JString s /\ (1 <= List.length s <= 100)%nat
                /\ out = JsString.trim s.
Proof.
  unfold employerNameSchema, Zod.string,
    MIN_EMPLOYER_NAME_LENGTH, MAX_EMPLOYER_NAME_LENGTH.
  destruct v; try (split; [discriminate|intros (s0 & H & _); discriminate]).
  cbn [Zod.stringChecks].
  destruct (Nat.ltb_spec (List.length s) 1) as [L1|L1];
    destruct (Nat.ltb_spec 100 (List.length s)) as [L2|L2]; cbn [app snd].
  all: split;
    [intros H; try discriminate H; injection H as <-; exists s;
     repeat split; lia
    |intros (s0 & [= <-] & Hlen & ->); try lia; reflexivity].
Qed.

Lemma testCurrencyCode_iff s :
  testCurrencyCode s = true
  <-> exists a b c, s = [a; b; c]
                    /\ (65 <= a <= 90 /\ 65 <= b <= 90 /\ 65 <= c <= 90)%N.
Proof.
  unfold testCurrencyCode. split.
  - intros H. apply andb_true_iff in H as [Hlen Hall].
    destruct s as [|a [|b [|c [|d s]]]]; try discriminate.
    exists a, b, c. split; [reflexivity|].
    simpl in Hall. rewrite !andb_true_iff, !N.leb_le in Hall. tauto.
  - intros (a & b & c & -> & Ha & Hb & Hc). simpl.
    rewrite !andb_true_iff, !N.leb_le. tauto.
Qed.

Lemma currency_field p v out :
  snd (currencySchema p v) = Zod.OK false out
  <-> exists s, v = JString s /\ testCurrencyCode s = true /\ out = s.
Proof.
  unfold currencySchema, Zod.string.
  destruct v; try (split; [discriminate|intros (s0 & H & _); discriminate]).
  cbn [Zod.stringChecks].
  destruct (Nat.ltb_spec (List.length s) 1) as [L1|L1];
    destruct (testCurrencyCode s) eqn:E; cbn [negb app snd].
  all: split;
    [intros H; try discriminate H; injection H as <-; exists s;
     repeat split; assumption
    |intros (s0 & [= <-] & Ht & ->); try congruence; try reflexivity].
  apply testCurrencyCode_iff in E as (a & b & c & -> & _). simpl in *. lia.
Qed.

Lemma annualGrossIncome_field p v out :
  snd (annualGrossIncomeSchema p v) = Zod.OK false out
  <-> v = JNumber out /\ Num.le MIN_ANNUAL_INCOME out = true
      /\ Num.le out MAX_ANNUAL_INCOME = true.
Proof.
  unfold annualGrossIncomeSchema, Zod.number.
  destruct v; try (split; [discriminate|intros [H _]; discriminate]).
  destruct (Num.isNaN x) eqn:Hnan.
  - split; [discriminate|]. intros ([= ->] & H & _).
    apply Num_le_notNaN in H. destruct H; congruence.
  - unfold Zod.positive, Zod.min, Zod.max. cbn [Zod.numberChecks].
    assert (Hmin : Num.isNaN MIN_ANNUAL_INCOME = false)
      by (rewrite MIN_ANNUAL_INCOME_eq; reflexivity).
    assert (Hmax : Num.isNaN MAX_ANNUAL_INCOME = false)
      by (rewrite MAX_ANNUAL_INCOME_eq; reflexivity).
    destruct (Num.le x Num.zero) eqn:E1;
      destruct (Num.lt x MIN_ANNUAL_INCOME) eqn:E2;
      destruct (Num.gt x MAX_ANNUAL_INCOME) eqn:E3; cbv beta iota;
      cbn [snd];
      (split; [intros H; try discriminate H; injection H as <-
              |intros ([= <-] & H1 & H2); try reflexivity]).
    all: try (rewrite (Num_le_one_positive _ H1) in E1; discriminate).
    all: try (rewrite (Num_le_not_lt _ _ H1) in E2; discriminate).
    all: try (rewrite Num_gt_lt, (Num_le_not_lt _ _ H2) in E3; discriminate).
    split; [reflexivity|]. split.
    + now apply Num_lt_false_le.
    + rewrite Num_gt_lt in E3. now apply Num_lt_false_le.
Qed.

Lemma employmentStartDate_field now p v out :
  snd (employmentStartDateSchema now p v) = Zod.OK false out
  <-> v = JDate (Some out) /\ (out <= now)%Z.
Proof.
  unfold employmentStartDateSchema, Zod.refine, Zod.date.
  destruct v as [| | | | |[t|]| | |];
    try (split; [discriminate|intros [H _]; discriminate]).
  destruct (Z.leb_spec t now) as [L|L]; cbn [snd].
  - split; [intros [= <-]; auto|intros [[= <-] _]; reflexivity].
  - split; [discriminate|intros [[= <-] H']; lia].
Qed.

Lemma employmentEndDate_field p v out :
  snd (employmentEndDateSchema p v) = Zod.OK false out
  <-> (v = JUndefined /\ out = None)
      \/ (exists te, v = JDate (Some te) /\ out = Some te).
Proof.
  unfold employmentEndDateSchema, Zod.optional, Zod.date.
  destruct v as [| | | | |[t|]| | |]; cbn [snd];
    try (split; [discriminate
                |intros [[H _]|(te & H & _)]; discriminate]).
  - split; [intros [= <-]; auto
           |intros [[_ ->]|(te & H & _)]; [reflexivity|discriminate]].
  - split; [intros [= <-]; right; eauto
           |intros [[H _]|(te & [= <-] & ->)]; [discriminate|reflexivity]].
Qed.

Lemma notes_field p v out :
  snd (notesSchema p v) = Zod.OK false out
  <-> (v = JUndefined /\ out = None)
      \/ (exists s, v = JString s /\ (List.length s <= 500)%nat
                    /\ out = Some s).
Proof.
  unfold notesSchema, Zod.optional, Zod.string, MAX_NOTES_LENGTH.
  destruct v; cbn [Zod.stringChecks snd];
    try (split; [discriminate
                |intros [[H _]|(s0 & H & _)]; discriminate]).
  - split; [intros [= <-]; auto
           |intros [[_ ->]|(s0 & H & _)]; [reflexivity|discriminate]].
  - destruct (Nat.ltb_spec 500 (List.length s)) as [L|L]; cbn [app snd].
    + split; [discriminate|].
      intros [[H0 _]|(s0 & [= <-] & Hlen & _)]; [discriminate|lia].
    + split; [intros [= <-]; right; eauto
             |intros [[H0 _]|(s0 & [= <-] & _ & ->)];
              [discriminate|reflexivity]].
Qed.

(** The object is valid exactly when every field is and the cross-field rule
    holds. *)
Lemma employmentSchema_fields now ps data :
  Zod.safeParse (employmentSchema now) (JObject ps) = Zod.success data
  <-> snd (employerNameSchema [k_employerName] (get k_employerName ps))
      = Zod.OK false (employerName data)
      /\ snd (currencySchema [k_currency] (get k_currency ps))
         = Zod.OK false (currency data)
      /\ snd (annualGrossIncomeSchema [k_annualGrossIncome]
                (get k_annualGrossIncome ps))
         = Zod.OK false (annualGrossIncome data)
      /\ snd (employmentStartDateSchema now [k_employmentStartDate]
                (get k_employmentStartDate ps))
         = Zod.OK false (employmentStartDate data)
      /\ snd (employmentEndDateSchema [k_employmentEndDate]
                (get k_employmentEndDate ps))
         = Zod.OK false (employmentEndDate data)
      /\ snd (notesSchema [k_notes] (get k_notes ps))
         = Zod.OK false (notes data)
      /\ endAfterStart data = true.
Proof.
  unfold Zod.safeParse, employmentSchema, Zod.refine, employmentObject.
  cbn [app].
  destruct (employerNameSchema _ _) as [i1 r1];
    destruct (currencySchema _ _) as [i2 r2];
    destruct (annualGrossIncomeSchema _ _) as [i3 r3];
    destruct (employmentStartDateSchema _ _ _) as [i4 r4];
    destruct (employmentEndDateSchema _ _) as [i5 r5];
    destruct (notesSchema _ _) as [i6 r6]; cbn [snd].
  destruct data as [n c x s e t]; cbn [employerName currency
    annualGrossIncome employmentStartDate employmentEndDate notes].
  split.
  - intros H.
    destruct r1 as [|[|] v1]; try discriminate H;
      destruct r2 as [|[|] v2]; try discriminate H;
      destruct r3 as [|[|] v3]; try discriminate H;
      destruct r4 as [|[|] v4]; try discriminate H;
      destruct r5 as [|[|] v5]; try discriminate H;
      destruct r6 as [|[|] v6]; try discriminate H;
      cbn [orb] in H;
      try (destruct (endAfterStart _); discriminate H).
    destruct (endAfterStart _) eqn:E; [|discriminate H].
    injection H as -> -> -> -> -> ->. repeat split. exact E.
  - intros (-> & -> & -> & -> & -> & -> & E). cbn [orb].
    rewrite E. reflexivity.
Qed.

(** X9. The schema accepts a record exactly when: the employer name is a
    string of 1 to 100 code units (counted before trimming); the currency
    is a string of three capital letters A-Z; the income is a number from 1
    to 1,000,000,000; the start date is a valid date not after the current
    moment; the end date is absent or a valid date strictly after the
    start; the notes are absent or a string of at most 500 code units.  The
    parsed data are the values of the record, the employer name trimmed. *)
Theorem employmentSchema_accepts now ps data :
  Zod.safeParse (employmentSchema now) (JObject ps) = Zod.success data
  <-> validRecord now ps data.
Proof.
  rewrite employmentSchema_fields, employerName_field, currency_field,
    annualGrossIncome_field, employmentStartDate_field,
    employmentEndDate_field, notes_field.
  unfold validRecord, endAfterStart. split.
  - intros ((s & Hn & Hlen & Hout) & (c & Hc & Ht & Hcout) & (Hx & Hx1 & Hx2)
            & (Hs & Hs1) & He & Hno & Hrule).
    apply testCurrencyCode_iff in Ht as (a & b & c' & -> & Hr).
    split; [exists s; auto|]. split; [exists a, b, c'; auto|].
    split; [exists (annualGrossIncome data); auto|].
    split; [|exact Hno].
    exists (employmentStartDate data). repeat split; try assumption.
    destruct He as [[He1 He2]|(te & He1 & He2)]; [left; auto|right].
    exists te. repeat split; try assumption.
    rewrite He2 in Hrule.
    destruct (Z.leb_spec te (employmentStartDate data)); [discriminate|lia].
  - intros ((s & Hn & Hlen & Hout) & (a & b & c & Hc & Hr & Hcout)
            & (x & Hx & Hx1 & Hx2 & Hxout) & (ts & Hs & Hs1 & Hsout & He)
            & Hno).
    subst x ts.
    split; [exists s; auto|].
    split; [exists [a; b; c]; repeat split; auto;
            apply testCurrencyCode_iff; eauto|].
    split; [auto|]. split; [auto|].
    split; [destruct He as [He|(te & He1 & _ & He2)]; [left; exact He|
            right; eauto]|].
    split; [exact Hno|].
    destruct He as [[_ ->]|(te & _ & Hlt & ->)]; [reflexivity|].
    destruct (Z.leb_spec te (employmentStartDate data)); [lia|reflexivity].
Qed.

Lemma employmentSchema_accepts_witness :
  exists data,
    Zod.safeParse (employmentSchema 1793000000000)
      (JObject (exampleEmployment t2023 t2024)) = Zod.success data
    /\ validRecord 1793000000000 (exampleEmployment t2023 t2024) data.
Proof.
  eexists. split; [reflexivity|].
  exact (proj1 (employmentSchema_accepts 1793000000000
                  (exampleEmployment t2023 t2024) _) eq_refl).
Defined.

(** ** The form rules and the standalone validators *)

(** X10. The form rule for the employer name is weaker than
    [validateEmployerName]: every name the validator accepts passes the form
    rule, while the form rule also accepts names with markup, for which the
    validator fails. *)
Theorem employerName_form_weaker :
  (forall p name,
      validateEmployerName name = true ->
      snd (employerNameSchema p (JString name))
      = Zod.OK false (JsString.trim name))
  /\ (forall p name,
         In c_lt name -> (List.length name <= 100)%nat ->
         validateEmployerName name = false
         /\ snd (employerNameSchema p (JString name))
            = Zod.OK false (JsString.trim name)).
Proof.
  split.
  - intros p name H. apply employerName_field. exists name.
    unfold validateEmployerName, testClassPlus in H.
    apply andb_true_iff in H as [Hc Hl]. apply Nat.leb_le in Hl.
    repeat split; try assumption.
    destruct name; [discriminate|simpl; lia].
  - intros p name Hin Hlen. split.
    + unfold validateEmployerName, testClassPlus.
      destruct name as [|x name]; [reflexivity|].
      apply andb_false_iff. left.
      destruct (forallb employerNameClass (x :: name)) eqn:E; [|reflexivity].
      rewrite forallb_forall in E. specialize (E _ Hin). discriminate E.
    + apply employerName_field. exists name. repeat split; try assumption.
      destruct name; [destruct Hin|simpl; lia].
Qed.

Lemma employerName_form_weaker_witness :
  (In c_lt (u "<b>Acme</b>") /\ (List.length (u "<b>Acme</b>") <= 100)%nat)
  /\ validateEmployerName (u "<b>Acme</b>") = false
  /\ snd (employerNameSchema [k_employerName] (JString (u "<b>Acme</b>")))
     = Zod.OK false (JsString.trim (u "<b>Acme</b>")).
Proof.
  assert (H1 : In c_lt (u "<b>Acme</b>")) by (simpl; tauto).
  assert (H2 : (List.length (u "<b>Acme</b>") <= 100)%nat) by (simpl; lia).
  split; [split; assumption|].
  exact (proj2 employerName_form_weaker [k_employerName] (u "<b>Acme</b>")
           H1 H2).
Defined.

(** X11. An income that the form accepts is valid for [validateIncome]. *)
Theorem accepted_income_valid now ps data :
  Zod.safeParse (employmentSchema now) (JObject ps) = Zod.success data ->
  validateIncome (annualGrossIncome data) = true.
Proof.
  intros H. apply employmentSchema_fields in H as (_ & _ & H & _).
  apply annualGrossIncome_field in H as (_ & H1 & H2).
  unfold validateIncome. fold MAX_ANNUAL_INCOME.
  rewrite Num_ge_le, H2, (Num_le_one_nonnegative _ H1). reflexivity.
Qed.

Lemma accepted_income_valid_witness :
  exists data,
    Zod.safeParse (employmentSchema 1793000000000)
      (JObject (exampleEmployment t2023 t2024)) = Zod.success data
    /\ validateIncome (annualGrossIncome data) = true.
Proof.
  eexists. split; [reflexivity|].
  exact (accepted_income_valid 1793000000000
           (exampleEmployment t2023 t2024) _ eq_refl).
Defined.

(** ** Currencies *)

(** X12. [getCurrencyInfo] finds a currency exactly for the four supported
    codes, the entry it returns has the code asked for, and every entry of
    the table is found under its own code. *)
Theorem getCurrencyInfo_lookup :
  (forall c info, getCurrencyInfo c = Some info ->
                  code info = c /\ In info SUPPORTED_CURRENCIES)
  /\ (forall info, In info SUPPORTED_CURRENCIES ->
                   getCurrencyInfo (code info) = Some info)
  /\ (forall c, getCurrencyInfo c <> None
                <-> In c [u "USD"; u "EUR"; u "GBP"; u "INR"]).
Proof.
  split; [|split].
  - intros c info H. unfold getCurrencyInfo in H.
    apply find_some in H as [Hin Hc]. apply JsString_eqb_eq in Hc. auto.
  - intros info Hin. simpl in Hin.
    destruct Hin as [<-|[<-|[<-|[<-|[]]]]]; reflexivity.
  - intros c. split.
    + intros H. destruct (getCurrencyInfo c) as [info|] eqn:E; [|now elim H].
      unfold getCurrencyInfo in E. apply find_some in E as [Hin Hc].
      apply JsString_eqb_eq in Hc. subst c. simpl in Hin.
      destruct Hin as [<-|[<-|[<-|[<-|[]]]]]; simpl; tauto.
    + simpl. intros [<-|[<-|[<-|[<-|[]]]]]; discriminate.
Qed.

Lemma getCurrencyInfo_lookup_witness :
  getCurrencyInfo (u "EUR") <> None
  /\ In (u "EUR") [u "USD"; u "EUR"; u "GBP"; u "INR"].
Proof.
  assert (H : getCurrencyInfo (u "EUR") <> None) by discriminate.
  split; [exact H|].
  exact (proj1 (proj2 (proj2 getCurrencyInfo_lookup) (u "EUR")) H).
Defined.

(** X13. Every supported currency code passes the currency rule of the
    form; the rule itself accepts any three capital letters, so it also
    accepts codes that have no entry in the table. *)
Theorem supported_currency_accepted :
  (forall info p,
      In info SUPPORTED_CURRENCIES ->
      snd (currencySchema p (JString (code info)))
      = Zod.OK false (code info))
  /\ (forall p v out,
         snd (currencySchema p v) = Zod.OK false out
         <-> exists a b c,
               v = JString [a; b; c] /\ out = [a; b; c]
               /\ (65 <= a <= 90 /\ 65 <= b <= 90 /\ 65 <= c <= 90)%N)
  /\ (exists c, snd (currencySchema [k_currency] (JString c))
                = Zod.OK false c
                /\ getCurrencyInfo c = None).
Proof.
  split; [|split].
  - intros info p Hin. apply currency_field. exists (code info).
    simpl in Hin. destruct Hin as [<-|[<-|[<-|[<-|[]]]]]; repeat split.
  - intros p v out. rewrite currency_field. split.
    + intros (s & -> & Ht & ->).
      apply testCurrencyCode_iff in Ht as (a & b & c & -> & Hr).
      exists a, b, c. auto.
    + intros (a & b & c & -> & -> & Hr). exists [a; b; c].
      repeat split. apply testCurrencyCode_iff. eauto.
  - exists (u "XYZ"). split; reflexivity.
Qed.

Lemma supported_currency_accepted_witness :
  In {| code := u "INR"; symbol := [8377%N]; name := u "Indian Rupee" |}
     SUPPORTED_CURRENCIES
  /\ snd (currencySchema [k_currency] (JString (u "INR")))
     = Zod.OK false (u "INR").
Proof.
  assert (H : In {| code := u "INR"; symbol := [8377%N];
                    name := u "Indian Rupee" |} SUPPORTED_CURRENCIES)
    by (simpl; tauto).
  split; [exact H|].
  exact (proj1 supported_currency_accepted _ [k_currency] H).
Defined.

Lemma lookupLocale_entry locale m c :
  lookupLocale locale m = Some c -> In (locale, c) m.
Proof.
  induction m as [|[k c'] m IH]; simpl; [discriminate|].
  destruct (JsString.eqb k locale) eqn:E.
  - intros [= ->]. apply JsString_eqb_eq in E. subst. now left.
  - intros H. right. now apply IH.
Qed.

Lemma lookupLocale_In locale m c :
  lookupLocale locale m = Some c -> In c (map snd m).
Proof.
  intros H. apply lookupLocale_entry in H.
  apply in_map_iff. exists (locale, c). auto.
Qed.

(** X14. The default currency is always a supported one: for every locale
    that is not the name of a member of [Object.prototype],
    [getDefaultCurrency] returns a currency code for which
    [getCurrencyInfo] has an entry; a locale of the map gets its own
    currency, and a locale whose language is not in the map gets USD. *)
Theorem getDefaultCurrency_supported :
  (forall locale,
      existsb (JsString.eqb locale) objectPrototypeNames = false ->
      exists c, getDefaultCurrency locale = Code c
                /\ getCurrencyInfo c <> None)
  /\ (forall locale c,
         In (locale, c) localeMap -> getDefaultCurrency locale = Code c)
  /\ (forall locale,
         locale <> [] ->
         existsb (JsString.eqb locale) objectPrototypeNames = false ->
         forallb (fun entry =>
                    negb (startsWith (beforeHyphen locale ++ [45%N])
                            (fst entry))) localeMap = true ->
         getDefaultCurrency locale = Code (u "USD")).
Proof.
  assert (Hsup : forall c, In c (map snd localeMap) ->
                           getCurrencyInfo c <> None).
  { simpl. intros c [<-|[<-|[<-|[<-|[<-|[<-|[<-|[]]]]]]]]; discriminate. }
  split; [|split].
  - intros locale Hn. unfold getDefaultCurrency.
    assert (Hn' : existsb
              (JsString.eqb match locale with [] => u "en-US" | _ => locale end)
              objectPrototypeNames = false).
    { destruct locale; [reflexivity|exact Hn]. }
    destruct (lookupLocale _ localeMap) as [c|] eqn:E.
    + exists c. split; [reflexivity|].
      apply Hsup. now apply (lookupLocale_In _ _ _ E).
    + rewrite Hn'.
      destruct (find _ localeMap) as [[k c]|] eqn:F.
      * exists c. split; [reflexivity|].
        apply find_some in F as [Hin _]. apply Hsup.
        apply in_map_iff. exists (k, c). auto.
      * exists (u "USD"). split; [reflexivity|discriminate].
  - intros locale c Hin. simpl in Hin.
    destruct Hin as [[= <- <-]|[[= <- <-]|[[= <- <-]|[[= <- <-]|[[= <- <-]|
                    [[= <- <-]|[[= <- <-]|[]]]]]]]]; reflexivity.
  - intros locale Hne Hn Hnone. unfold getDefaultCurrency.
    destruct locale as [|x locale]; [now elim Hne|].
    destruct (lookupLocale _ localeMap) as [c|] eqn:E.
    + exfalso. apply lookupLocale_entry in E. simpl in E.
      destruct E as [E|[E|[E|[E|[E|[E|[E|[]]]]]]]].
      all: injection E as E1 E2 E3; subst x locale;
        vm_compute in Hnone; discriminate Hnone.
    + rewrite Hn.
      destruct (find _ localeMap) as [[k c]|] eqn:F; [|reflexivity].
      apply find_some in F as [Hin Hst].
      rewrite forallb_forall in Hnone. specialize (Hnone _ Hin).
      simpl in Hst, Hnone. rewrite Hst in Hnone. discriminate.
Qed.

Lemma getDefaultCurrency_supported_witness :
  existsb (JsString.eqb (u "fr-CA")) objectPrototypeNames = false
  /\ (exists c, getDefaultCurrency (u "fr-CA") = Code c
                /\ getCurrencyInfo c <> None).
Proof.
  split; [reflexivity|].
  exact (proj1 getDefaultCurrency_supported (u "fr-CA") eq_refl).
Defined.

(** ** calculateTotalIncome: dates *)

(** X15. An invalid [Date], as start date or as end date, never surfaces as
    an error or as NaN: the result is 0. *)
Theorem calculateTotalIncome_invalid_date env income :
  (forall endDate,
      calculateTotalIncome env income (Some None) endDate = Num.zero)
  /\ (forall startDate,
         calculateTotalIncome env income startDate (Some None) = Num.zero).
Proof.
  unfold calculateTotalIncome, calculateTotalIncomeTry. split.
  - intros endDate. destruct income; try reflexivity.
    destruct (Num.isNaN x); [reflexivity|].
    destruct (negb (Num.truthy x) || Num.le x Num.zero); reflexivity.
  - intros startDate. destruct income; try reflexivity.
    destruct (Num.isNaN x); [reflexivity|].
    destruct startDate as [[ts|]|]; try reflexivity;
      destruct (negb (Num.truthy x) || Num.le x Num.zero); reflexivity.
Qed.

(** X16. A [null] end date stands for the current moment: the result is the
    one for an end date equal to the current time; and with an end date the
    result does not depend on the current time at all. *)
Theorem calculateTotalIncome_end_default :
  (forall env income startDate,
      calculateTotalIncome env income startDate None
      = calculateTotalIncome env income startDate (Some (Some (now env))))
  /\ (forall env env' income startDate endTime,
         zone env = zone env' ->
         calculateTotalIncome env income startDate (Some endTime)
         = calculateTotalIncome env' income startDate (Some endTime)).
Proof.
  split.
  - intros env income startDate. reflexivity.
  - intros [n z] [n' z'] income startDate endTime H. simpl in H. subst z'.
    reflexivity.
Qed.

Lemma calculateTotalIncome_end_default_witness :
  zone {| now := 0; zone := JsDate.fixed 60 |}
  = zone {| now := 1793000000000; zone := JsDate.fixed 60 |}
  /\ calculateTotalIncome {| now := 0; zone := JsDate.fixed 60 |}
       (JNumber (Num.ofZ 60000)) (Some (Some t2023)) (Some (Some t2024))
     = calculateTotalIncome {| now := 1793000000000; zone := JsDate.fixed 60 |}
         (JNumber (Num.ofZ 60000)) (Some (Some t2023)) (Some (Some t2024)).
Proof.
  split; [reflexivity|].
  exact (proj2 calculateTotalIncome_end_default
           {| now := 0; zone := JsDate.fixed 60 |}
           {| now := 1793000000000; zone := JsDate.fixed 60 |}
           (JNumber (Num.ofZ 60000)) (Some (Some t2023)) (Some t2024)
           eq_refl).
Defined.

(** ** The form: what the debounced computation receives and shows *)

(** X17. The effect never hands NaN, a negative zero or an empty currency
    code to the computation, so of the three exceptions of
    [calculateTotalIncome] only the two about invalid dates can be raised
    from the form. *)
Theorem effectArgs_defaults w :
  Num.isNaN (EmploymentForm.income (EmploymentForm.effectArgs w)) = false
  /\ EmploymentForm.income (EmploymentForm.effectArgs w) <> S754_zero true
  /\ EmploymentForm.currencyCode (EmploymentForm.effectArgs w) <> []
  /\ (forall env m,
         calculateTotalIncomeTry env
           (JNumber (EmploymentForm.income (EmploymentForm.effectArgs w)))
           (EmploymentForm.start (EmploymentForm.effectArgs w))
           (EmploymentForm.end_ (EmploymentForm.effectArgs w)) = Throw m ->
         m = u "Invalid start date" \/ m = u "Invalid end date").
Proof.
  assert (Hnan : Num.isNaN (EmploymentForm.income
                              (EmploymentForm.effectArgs w)) = false).
  { destruct w as [c [[s|s| |s m e]|] sd ed]; reflexivity. }
  split; [exact Hnan|]. split; [|split].
  - destruct w as [c [[[|]|s| |s m e]|] sd ed]; discriminate.
  - destruct w as [[[|x c]|] i sd ed]; discriminate.
  - intros env m. unfold calculateTotalIncomeTry. rewrite Hnan.
    set (inc := EmploymentForm.income (EmploymentForm.effectArgs w)).
    destruct (EmploymentForm.start _) as [[ts|]|]; [| |discriminate].
    all: destruct (negb (Num.truthy inc) || Num.le inc Num.zero);
      try discriminate.
    all: destruct (EmploymentForm.end_ _) as [[te|]|]; simpl;
      try discriminate;
      try (destruct (_ <? _)%Z; discriminate);
      intros [= <-]; auto.
Qed.

Lemma effectArgs_defaults_witness :
  calculateTotalIncomeTry {| now := 0; zone := JsDate.fixed 0 |}
    (JNumber (EmploymentForm.income
                (EmploymentForm.effectArgs
                   {| EmploymentForm.selectedCurrency := None;
                      EmploymentForm.annualIncome := Some (Num.ofZ 5);
                      EmploymentForm.startDate := Some None;
                      EmploymentForm.endDate := None |})))
    (Some None) None = Throw (u "Invalid start date")
  /\ (u "Invalid start date" = u "Invalid start date"
      \/ u "Invalid start date" = u "Invalid end date").
Proof.
  split; [reflexivity|].
  exact (proj2 (proj2 (proj2 (effectArgs_defaults
           {| EmploymentForm.selectedCurrency := None;
              EmploymentForm.annualIncome := Some (Num.ofZ 5);
              EmploymentForm.startDate := Some None;
              EmploymentForm.endDate := None |})))
           {| now := 0; zone := JsDate.fixed 0 |} (u "Invalid start date") eq_refl).
Defined.

(** X18. After a burst of changes and the timer task, the display shows the
    total computed from the values of the last change, at the time the
    timer task ran, with the symbol of the selected currency, or the dollar
    sign when the code is not a supported one. *)
Theorem debounce_display z st time fields evs finish :
  burst time evs ->
  (fst (latestChange time fields evs) + 500 <= finish)%Z ->
  let a := EmploymentForm.effectArgs (snd (latestChange time fields evs)) in
  EmploymentForm.totalIncome
    (EmploymentForm.run z st
       (EmploymentForm.Change time fields :: evs
        ++ [EmploymentForm.TimerTask finish]))
  = EmploymentForm.Formatted
      match getCurrencyInfo (EmploymentForm.currencyCode a) with
      | Some info => symbol info
      | None => [36%N]
      end
      (calculateTotalIncome {| now := finish; zone := z |}
         (JNumber (EmploymentForm.income a))
         (EmploymentForm.start a) (EmploymentForm.end_ a)).
Proof.
  intros Hb Hfin a.
  change (EmploymentForm.run z st
            (EmploymentForm.Change time fields
             :: evs ++ [EmploymentForm.TimerTask finish]))
    with (EmploymentForm.run z
            (EmploymentForm.step z st
               (EmploymentForm.Change time fields))
            (evs ++ [EmploymentForm.TimerTask finish])).
  rewrite run_app. cbn [EmploymentForm.step].
  rewrite (burst_pending z time _ _ _ evs Hb fields eq_refl).
  cbn [EmploymentForm.run fold_left EmploymentForm.step
       EmploymentForm.timer EmploymentForm.lastArgs].
  apply Z.leb_le in Hfin. unfold EmploymentForm.delay. rewrite Hfin.
  cbn [EmploymentForm.totalIncome]. unfold EmploymentForm.calculate.
  fold a. f_equal.
  destruct (getCurrencyInfo (EmploymentForm.currencyCode a)) as [info|] eqn:E;
    [|reflexivity].
  unfold getCurrencyInfo in E. apply find_some in E as [Hin _].
  simpl in Hin. destruct Hin as [<-|[<-|[<-|[<-|[]]]]]; reflexivity.
Qed.

(** X19. From the initial state on, the display keeps the initial text
    exactly as long as nothing has been recomputed, and everything that is
    recomputed is what the effect passed at some change. *)
Theorem debounce_invariant z evs :
  (EmploymentForm.totalIncome
     (EmploymentForm.run z EmploymentForm.initial evs)
   = EmploymentForm.Initial
   <-> EmploymentForm.recomputations
         (EmploymentForm.run z EmploymentForm.initial evs) = [])
  /\ (forall a,
         In a (EmploymentForm.recomputations
                 (EmploymentForm.run z EmploymentForm.initial evs)) ->
         exists time fields,
           In (EmploymentForm.Change time fields) evs
           /\ a = EmploymentForm.effectArgs fields).
Proof.
  assert (Hinv : forall evs st seen,
    ((EmploymentForm.totalIncome st = EmploymentForm.Initial
      <-> EmploymentForm.recomputations st = [])
     /\ (forall a, In a (EmploymentForm.recomputations st)
                   \/ EmploymentForm.lastArgs st = Some a ->
                   exists time fields,
                     In (EmploymentForm.Change time fields) seen
                     /\ a = EmploymentForm.effectArgs fields)) ->
    let st' := EmploymentForm.run z st evs in
    (EmploymentForm.totalIncome st' = EmploymentForm.Initial
     <-> EmploymentForm.recomputations st' = [])
    /\ (forall a, In a (EmploymentForm.recomputations st')
                  \/ EmploymentForm.lastArgs st' = Some a ->
                  exists time fields,
                    In (EmploymentForm.Change time fields) (seen ++ evs)
                    /\ a = EmploymentForm.effectArgs fields)).
  { clear evs. induction evs as [|ev evs IH]; intros st seen [H1 H2].
    - simpl. rewrite app_nil_r. auto.
    - change (EmploymentForm.run z st (ev :: evs))
        with (EmploymentForm.run z (EmploymentForm.step z st ev)
                evs).
      replace (seen ++ ev :: evs) with ((seen ++ [ev]) ++ evs)
        by (rewrite <- app_assoc; reflexivity).
      apply IH. destruct ev as [time fields|time]; simpl.
      + split; [exact H1|].
        intros a [Ha|[= <-]].
        * destruct (H2 a (or_introl Ha)) as (t & f & Hin & ->).
          exists t, f. split; [apply in_or_app; now left|reflexivity].
        * exists time, fields.
          split; [apply in_or_app; right; now left|reflexivity].
      + assert (Hkeep : forall a,
                  In a (EmploymentForm.recomputations st)
                  \/ EmploymentForm.lastArgs st = Some a ->
                  exists t f,
                    In (EmploymentForm.Change t f)
                       (seen ++ [EmploymentForm.TimerTask time])
                    /\ a = EmploymentForm.effectArgs f).
        { intros a Ha. destruct (H2 a Ha) as (t & f & Hin & ->).
          exists t, f. split; [apply in_or_app; now left|reflexivity]. }
        destruct (EmploymentForm.timer st) as [deadline|];
          [|split; assumption].
        destruct (EmploymentForm.lastArgs st) as [a0|] eqn:El;
          [|split; [exact H1|intros a Ha; apply Hkeep; rewrite El in Ha; exact Ha]].
        destruct (deadline <=? time)%Z;
          [|split; [exact H1|intros a Ha; apply Hkeep; rewrite El in Ha; exact Ha]].
        simpl. split.
        * split; [discriminate|].
          intros H. destruct (EmploymentForm.recomputations st); discriminate.
        * intros a [Ha|Ha].
          -- apply in_app_or in Ha as [Ha|[<-|[]]].
             ++ apply Hkeep. now left.
             ++ apply Hkeep. right. first [reflexivity|exact El].
          -- apply Hkeep. right. first [exact Ha|rewrite El in Ha; exact Ha]. }
  destruct (Hinv evs EmploymentForm.initial []) as [H1 H2].
  - split; [split; reflexivity|]. intros a [[]|H]; discriminate H.
  - split; [exact H1|]. intros a Ha. apply (H2 a). now left.
Qed.

Lemma debounce_display_witness :
  (burst 1000 (tl (tenEdits 980))
   /\ (fst (latestChange 1000
              {| EmploymentForm.selectedCurrency := Some (u "EUR");
                 EmploymentForm.annualIncome := Some (Num.ofZ 1);
                 EmploymentForm.startDate := Some (Some t2023);
                 EmploymentForm.endDate := Some (Some t2024) |}
              (tl (tenEdits 980))) + 500 <= 1680)%Z)
  /\ EmploymentForm.totalIncome
       (EmploymentForm.run (JsDate.fixed 0) EmploymentForm.initial
          (tenEdits 980 ++ [EmploymentForm.TimerTask 1680]))
     = EmploymentForm.Formatted [8364%N] (Num.ofZ 10).
Proof.
  assert (H1 : burst 1000 (tl (tenEdits 980))).
  { simpl. unfold EmploymentForm.delay. repeat split; lia. }
  assert (H2 : (fst (latestChange 1000
              {| EmploymentForm.selectedCurrency := Some (u "EUR");
                 EmploymentForm.annualIncome := Some (Num.ofZ 1);
                 EmploymentForm.startDate := Some (Some t2023);
                 EmploymentForm.endDate := Some (Some t2024) |}
              (tl (tenEdits 980))) + 500 <= 1680)%Z).
  { simpl. lia. }
  split; [split; [exact H1|exact H2]|].
  exact (debounce_display (JsDate.fixed 0) EmploymentForm.initial 1000%Z
           {| EmploymentForm.selectedCurrency := Some (u "EUR");
              EmploymentForm.annualIncome := Some (Num.ofZ 1);
              EmploymentForm.startDate := Some (Some t2023);
              EmploymentForm.endDate := Some (Some t2024) |}
           (tl (tenEdits 980)) 1680%Z H1 H2).
Defined.

Lemma debounce_invariant_witness :
  EmploymentForm.recomputations
    (EmploymentForm.run (JsDate.fixed 0) EmploymentForm.initial (tenEdits 980)) = []
  /\ EmploymentForm.totalIncome
       (EmploymentForm.run (JsDate.fixed 0) EmploymentForm.initial (tenEdits 980))
     = EmploymentForm.Initial.
Proof.
  split; [reflexivity|].
  exact (proj2 (proj1 (debounce_invariant (JsDate.fixed 0) (tenEdits 980))) eq_refl).
Defined.

(** ** The employment schema: missing and non-positive values *)

Lemma employmentEndDate_other p v :
  forallb otherMessage (fst (employmentEndDateSchema p v)) = true.
Proof.
  unfold employmentEndDateSchema, Zod.optional, Zod.date.
  destruct v as [| | |x| |[t|]| | |]; reflexivity.
Qed.

(** X20. A record without a start date is rejected with the message of the
    schema for a missing start date at the start-date path; and because
    that field is aborted, the cross-field rule is not evaluated: no
    end-date message is reported, whatever the end date is. *)
Theorem employmentSchema_missing_start now ps :
  get k_employmentStartDate ps = JUndefined ->
  exists issues,
    Zod.safeParse (employmentSchema now) (JObject ps) = Zod.failure issues
    /\ In requiredIssue issues
    /\ (forall i, In i issues ->
          Zod.message i <> ERROR_MESSAGES.employmentEndDate_beforeStart).
Proof.
  intros Hs.
  pose proof (employerName_other [k_employerName] (get k_employerName ps))
    as O1.
  pose proof (currency_other [k_currency] (get k_currency ps)) as O2.
  pose proof (annualGrossIncome_other [k_annualGrossIncome]
                (get k_annualGrossIncome ps)) as O3.
  pose proof (employmentEndDate_other [k_employmentEndDate]
                (get k_employmentEndDate ps)) as O5.
  pose proof (notes_other [k_notes] (get k_notes ps)) as O6.
  revert O1 O2 O3 O5 O6.
  unfold Zod.safeParse, employmentSchema, Zod.refine, employmentObject.
  cbn [app]. rewrite Hs.
  unfold employmentStartDateSchema, Zod.refine, Zod.date.
  cbn [Zod.invalidTypeMessage].
  destruct (employerNameSchema _ _) as [i1 r1];
    destruct (currencySchema _ _) as [i2 r2];
    destruct (annualGrossIncomeSchema _ _) as [i3 r3];
    destruct (employmentEndDateSchema _ _) as [i5 r5];
    destruct (notesSchema _ _) as [i6 r6];
    cbn [fst]; intros O1 O2 O3 O5 O6.
  assert (E : match r1, r2, r3, @Zod.INVALID Z, r5, r6 with
              | Zod.OK d1 v1, Zod.OK d2 v2, Zod.OK d3 v3, Zod.OK d4 v4,
                Zod.OK d5 v5, Zod.OK d6 v6 =>
                  Zod.OK (d1 || d2 || d3 || d4 || d5 || d6)
                    {| employerName := v1; currency := v2;
                       annualGrossIncome := v3; employmentStartDate := v4;
                       employmentEndDate := v5; notes := v6 |}
              | _, _, _, _, _, _ => Zod.INVALID
              end = Zod.INVALID).
  { destruct r1, r2, r3; reflexivity. }
  rewrite E. eexists. split; [reflexivity|]. split.
  - unfold requiredIssue. in_issues.
  - intros i Hin. rewrite forallb_forall in O1, O2, O3, O5, O6.
    rewrite !in_app_iff in Hin. simpl in Hin.
    destruct Hin as [H|[H|[H|[[<-|[]]|[H|H]]]]];
      try (apply otherMessage_not_endDate; auto); discriminate.
Qed.

Lemma employmentSchema_missing_start_witness :
  get k_employmentStartDate
    [(k_employerName, JString (u "Acme"));
     (k_employmentEndDate, JDate (Some t2023))] = JUndefined
  /\ exists issues,
       Zod.safeParse (employmentSchema t2024)
         (JObject [(k_employerName, JString (u "Acme"));
                   (k_employmentEndDate, JDate (Some t2023))])
       = Zod.failure issues
       /\ In requiredIssue issues.
Proof.
  split; [reflexivity|].
  destruct (employmentSchema_missing_start t2024
              [(k_employerName, JString (u "Acme"));
               (k_employmentEndDate, JDate (Some t2023))] eq_refl)
    as (issues & H1 & H2 & _).
  exists issues. split; [exact H1|exact H2].
Defined.

(** X21. An income of zero or less, the initial value of the form among
    them, is reported twice at the income path: as not positive and, by the
    minimum of 1, as missing; an income above zero and below 1 is reported
    as missing only. *)
Theorem income_not_positive p x :
  (Num.le x Num.zero = true ->
   annualGrossIncomeSchema p (JNumber x)
   = ([ {| Zod.path := p;
           Zod.message := ERROR_MESSAGES.annualGrossIncome_positive |};
        {| Zod.path := p;
           Zod.message := ERROR_MESSAGES.annualGrossIncome_required |} ],
      Zod.OK true x))
  /\ (Num.lt Num.zero x = true -> Num.lt x MIN_ANNUAL_INCOME = true ->
      annualGrossIncomeSchema p (JNumber x)
      = ([ {| Zod.path := p;
              Zod.message := ERROR_MESSAGES.annualGrossIncome_required |} ],
         Zod.OK true x)).
Proof.
  assert (Hbig : Num.lt x MIN_ANNUAL_INCOME = true ->
                 Num.gt x MAX_ANNUAL_INCOME = false).
  { intros H. apply Num_lt_one_le_max in H.
    rewrite Num_gt_lt. now apply Num_le_not_lt. }
  assert (Hsmall : Num.le x Num.zero = true ->
                   Num.lt x MIN_ANNUAL_INCOME = true).
  { rewrite MIN_ANNUAL_INCOME_eq. unfold Num.le, Num.lt, Num.zero.
    destruct x as [s|s| |s m e]; try destruct s; cbn [SFcompare];
      try discriminate; reflexivity. }
  unfold annualGrossIncomeSchema, Zod.number, Zod.positive, Zod.min, Zod.max.
  split.
  - intros H. pose proof (Hsmall H) as H1. pose proof (Hbig H1) as H2.
    destruct (Num_le_notNaN _ _ H) as [-> _].
    cbn [Zod.numberChecks]. rewrite H, H1, H2. reflexivity.
  - intros H0 H1. pose proof (Hbig H1) as H2.
    assert (Hn : Num.isNaN x = false)
      by (destruct x; try reflexivity; discriminate H0).
    assert (Hle : Num.le x Num.zero = false).
    { rewrite <- Num_gt_lt in H0. unfold Num.gt in H0. unfold Num.le.
      destruct (SFcompare x Num.zero) as [[| |]|]; try discriminate;
        reflexivity. }
    rewrite Hn. cbn [Zod.numberChecks]. rewrite Hle, H1, H2. reflexivity.
Qed.

Lemma income_not_positive_witness :
  Num.le Num.zero Num.zero = true
  /\ fst (annualGrossIncomeSchema [k_annualGrossIncome] (JNumber Num.zero))
     = [ {| Zod.path := [k_annualGrossIncome];
            Zod.message := ERROR_MESSAGES.annualGrossIncome_positive |};
         {| Zod.path := [k_annualGrossIncome];
            Zod.message := ERROR_MESSAGES.annualGrossIncome_required |} ].
Proof.
  split; [reflexivity|].
  exact (f_equal fst (proj1 (income_not_positive [k_annualGrossIncome]
                               Num.zero) eq_refl)).
Defined.

(** ** Rendering *)





(** ** Whole years in a zone with a fixed offset *)

(** The main path of the computation: for a positive income and a valid
    start that is not after the valid end. *)
Lemma calculateTotalIncome_years env x ts te :
  Num.gt x Num.zero = true -> (ts <= te)%Z ->
  calculateTotalIncome env (JNumber x) (Some (Some ts)) (Some (Some te))
  = Currency.value
      (Currency.multiply (Currency.currency x)
         (Dayjs.diffYears (zone env) te ts)).
Proof.
  intros Hx Hle.
  assert (Hnan : Num.isNaN x = false) by (destruct x; try reflexivity; discriminate Hx).
  assert (Hpos : negb (Num.truthy x) || Num.le x Num.zero = false).
  { destruct x as [s|s| |s m e]; try destruct s; try discriminate Hx;
      reflexivity. }
  unfold calculateTotalIncome, calculateTotalIncomeTry.
  rewrite Hnan, Hpos.
  cbn [Dayjs.isValid negb andb Dayjs.isBefore].
  apply Z.ltb_ge in Hle. rewrite Hle. reflexivity.
Qed.

(** X24. Where the local zone keeps one offset from UTC, a fixed number of
    quarters of an hour from -12:00 to +14:00, the span from 2023-01-01 to
    2024-01-01 is exactly one year in the calendar-aware difference, and
    [calculateTotalIncome] of 50000 over it is exactly 50000; the same
    holds for the 366 days from 2024-01-01 to 2025-01-01, so the divisor is
    not a fixed number of days; the two years together give 100000 and the
    first half of 2023 gives 25000; for every positive income the result
    over the year 2023 is the income times one in the arithmetic of
    currency.js.  The result is 50000 in Europe/Berlin as well, where the
    offset changes during the year but is the same at both dates. *)
Theorem calculateTotalIncome_one_year env :
  (exists k, zone env = JsDate.fixed (15 * k) /\ -48 <= k <= 56)%Z ->
  Dayjs.diffYears (zone env) t2024 t2023 = Num.ofZ 1
  /\ Dayjs.diffYears (zone env) t2025 t2024 = Num.ofZ 1
  /\ calculateTotalIncome env (JNumber (Num.ofZ 50000))
       (Some (Some t2023)) (Some (Some t2024)) = Num.ofZ 50000
  /\ calculateTotalIncome env (JNumber (Num.ofZ 50000))
       (Some (Some t2024)) (Some (Some t2025)) = Num.ofZ 50000
  /\ calculateTotalIncome env (JNumber (Num.ofZ 50000))
       (Some (Some t2023)) (Some (Some t2025)) = Num.ofZ 100000
  /\ calculateTotalIncome env (JNumber (Num.ofZ 50000))
       (Some (Some t2023)) (Some (Some t2023July)) = Num.ofZ 25000
  /\ (t2024 - t2023 = 365 * JsDate.msPerDay)%Z
  /\ (t2025 - t2024 = 366 * JsDate.msPerDay)%Z
  /\ (forall x, Num.gt x Num.zero = true ->
         calculateTotalIncome env (JNumber x)
           (Some (Some t2023)) (Some (Some t2024))
         = Currency.value
             (Currency.multiply (Currency.currency x) (Num.ofZ 1)))
  /\ calculateTotalIncome {| now := now env; zone := berlin |}
       (JNumber (Num.ofZ 50000)) (Some (Some t2023)) (Some (Some t2024))
     = Num.ofZ 50000.
Proof.
  intros (k & Hk & Hrange).
  assert (Hin : In (15 * k)%Z (quarters (-48) 105))
    by (apply quarters_In; lia).
  pose proof (proj1 (forallb_forall _ _) oneYearCheck_all _ Hin) as H.
  unfold oneYearCheck in H. rewrite !andb_true_iff in H.
  destruct H as [[[[[H1 H2] H3] H4] H5] H6].
  apply sameNumber_eq in H1, H2, H3, H4, H5, H6.
  assert (E : forall z s e,
             zone env = z ->
             calculateTotalIncome env (JNumber (Num.ofZ 50000))
               (Some (Some s)) (Some (Some e))
             = totalOf50000 z s e).
  { intros z s e <-. unfold totalOf50000.
    now rewrite (calculateTotalIncome_now env 0). }
  rewrite !(E _ _ _ Hk), Hk.
  split; [exact H1|]. split; [exact H2|]. split; [exact H3|].
  split; [exact H4|]. split; [exact H5|]. split; [exact H6|].
  split; [reflexivity|]. split; [reflexivity|].
  split.
  { intros x Hx.
    rewrite calculateTotalIncome_years by (assumption || discriminate).
    now rewrite Hk, H1. }
  rewrite (calculateTotalIncome_now _ 0). cbn [zone].
  change (totalOf50000 berlin t2023 t2024 = Num.ofZ 50000).
  vm_compute. reflexivity.
Qed.

Lemma calculateTotalIncome_one_year_witness :
  (exists k, zone {| now := 1793000000000; zone := JsDate.fixed (-300) |}
             = JsDate.fixed (15 * k) /\ -48 <= k <= 56)%Z
  /\ calculateTotalIncome
       {| now := 1793000000000; zone := JsDate.fixed (-300) |}
       (JNumber (Num.ofZ 50000)) (Some (Some t2023)) (Some (Some t2024))
     = Num.ofZ 50000.
Proof.
  assert (H : (exists k, zone {| now := 1793000000000;
                                zone := JsDate.fixed (-300) |}
                         = JsDate.fixed (15 * k) /\ -48 <= k <= 56)%Z).
  { exists (-20)%Z. split; [reflexivity|lia]. }
  split; [exact H|].
  exact (proj1 (proj2 (proj2
           (calculateTotalIncome_one_year
              {| now := 1793000000000; zone := JsDate.fixed (-300) |} H)))).
Defined.
